(** * Resolvers and client facade of the content-management site

    A shallow embedding of the GraphQL resolvers (queries and mutations) and
    of the admin client's [ArticleService], with the properties of the
    specification stated over them.

    - JavaScript exceptions are an error type [exn]; an [async] resolver is a
      computation in a state-and-exception monad over the persistent store.
    - The Prisma client, bcryptjs and jsonwebtoken are external collaborators:
      the store is modelled by tables kept in insertion order, the two
      cryptographic libraries are fields of an environment record.
    - The RxJS pipeline of the client is modelled on the sequence of
      notifications an observable delivers, with the logger as state. *)

From Stdlib Require Import String Ascii List Bool ZArith Arith Lia DecimalString.
Import ListNotations.
Local Open Scope string_scope.
#[local] Set Warnings "-register-all".

(** ** JavaScript exceptions and results *)

Inductive exn : Type :=
| Error (message : string)      (* throw new Error(message) *)
| TypeError (message : string). (* raised by the runtime, e.g. a property read on null *)

Inductive result (A : Type) : Type :=
| Return (a : A)
| Throw (e : exn).
Arguments Return {A} a.
Arguments Throw {A} e.

(** The error kinds of the specification's taxonomy.  The resolvers only ever
    throw plain [Error] objects; a kind is recognised by its message. *)
Inductive ErrorKind : Type :=
| NotFoundError
| DuplicateError
| InvalidCredentialsError
| UnauthenticatedError
| NotAuthorizedError.

Definition errorKind (e : exn) : option ErrorKind :=
  match e with
  | Error m =>
      if m =? "No such user found" then Some NotFoundError
      else if m =? "User already exists" then Some DuplicateError
      else if m =? "Invalid password" then Some InvalidCredentialsError
      else if m =? "Not authenticated" then Some UnauthenticatedError
      else if m =? "Not authorized" then Some NotAuthorizedError
      else None
  | TypeError _ => None
  end.

(** ** Entities *)

Definition ID := string.

Record User : Type := mkUser {
  user_id : ID;
  user_name : string;
  user_email : string;
  user_pwHash : string
}.

Record Article : Type := mkArticle {
  article_id : ID;
  article_title : string;
  article_summary : string;
  article_content : string;
  article_tags : list string;
  article_draft : bool
}.

Record Comment : Type := mkComment {
  comment_id : ID;
  comment_content : string;
  comment_user : ID;      (* relation: authoring user *)
  comment_article : ID    (* relation: parent article *)
}.

Record Page : Type := mkPage {
  page_id : ID;
  page_name : string;
  page_content : string
}.

(** A file's metadata, attached to a page or to an article. *)
Record File : Type := mkFile {
  file_id : ID;
  file_name : string;
  file_extension : string;
  file_page : option ID;      (* relation: parent page *)
  file_article : option ID    (* relation: parent article *)
}.

(** ** The persistent store and the monad of effects *)

Record World : Type := mkWorld {
  userTable : list User;
  articleTable : list Article;
  commentTable : list Comment;
  pageTable : list Page;
  nextId : nat;    (* identifier allocator of the store *)
  entropy : nat;   (* randomness consumed by salt generation *)
  clock : nat      (* the server's clock, in seconds *)
}.

(** Effectful code: runs on a state, returns or throws.  A throw does not
    roll the state back. *)
Definition Eff (S A : Type) : Type := S -> result A * S.

Definition ret {S A} (a : A) : Eff S A := fun s => (Return a, s).
Definition throw {S A} (e : exn) : Eff S A := fun s => (Throw e, s).
Definition bind {S A B} (m : Eff S A) (k : A -> Eff S B) : Eff S B :=
  fun s => match m s with
           | (Return a, s') => k a s'
           | (Throw e, s') => (Throw e, s')
           end.

(** An [async] resolver runs on the store. *)
Definition M (A : Type) : Type := Eff World A.

Declare Scope eff_scope.
Delimit Scope eff_scope with eff.
Notation "x <- m ;; k" := (bind m (fun x => k))
  (at level 100, m at next level, right associativity) : eff_scope.
Notation "m ;;; k" := (bind m (fun _ => k))
  (at level 100, right associativity) : eff_scope.
Local Open Scope eff_scope.

(** ** String containment, as the store's [_contains] filters compute it *)

Fixpoint contains (s sub : string) : bool :=
  String.prefix sub s ||
  match s with
  | EmptyString => false
  | String _ s' => contains s' sub
  end.

(** JavaScript truthiness of an optional string argument: [undefined], [null]
    and the empty string are falsy. *)
Definition truthy (o : option string) : bool :=
  match o with
  | Some s => negb (s =? "")
  | None => false
  end.

(** ** The Prisma client

    The store behind [context.prisma], on the operations the resolvers call.
    Tables are lists in insertion order; a lookup by a unique field yields
    the row or [null]; a create appends a row under a new identifier. *)

Module Prisma.

(** [ArticleWhereInput]: the fields given are conjoined, [OR] holds when one
    of its members does. *)
Inductive ArticleWhereInput : Type := mkWhere {
  draft : option bool;
  title_contains : option string;
  summary_contains : option string;
  OR : option (list ArticleWhereInput)
}.

Definition given {A} (o : option A) (p : A -> bool) : bool :=
  match o with
  | Some x => p x
  | None => true
  end.

Fixpoint matches (w : ArticleWhereInput) (a : Article) : bool :=
  match w with
  | mkWhere d t s o =>
      given d (fun b => Bool.eqb (article_draft a) b)
      && given t (fun f => contains (article_title a) f)
      && given s (fun f => contains (article_summary a) f)
      && match o with
         | Some ws => existsb (fun w' => matches w' a) ws
         | None => true
         end
  end.

Record ArticlesQuery : Type := mkQuery {
  q_where : option ArticleWhereInput;
  q_skip : option Z;
  q_first : option Z
}.

(** Offset and limit; an absent argument leaves the rows alone.  The
    resolvers pass [skip] and [first] on unscreened; a negative value counts
    as 0 here. *)
Definition paginate {A} (skip first : option Z) (rows : list A) : list A :=
  let rows := match skip with
              | Some n => skipn (Z.to_nat n) rows
              | None => rows
              end in
  match first with
  | Some n => firstn (Z.to_nat n) rows
  | None => rows
  end.

(** [prisma.articles({where, skip, first})]: rows in insertion order. *)
Definition articles (q : ArticlesQuery) : M (list Article) :=
  fun w =>
    let rows := match q_where q with
                | Some c => filter (matches c) (articleTable w)
                | None => articleTable w
                end in
    (Return (paginate (q_skip q) (q_first q) rows), w).

(** [prisma.article({id})]: the row or [null]. *)
Definition article (id : ID) : M (option Article) :=
  fun w => (Return (find (fun a => article_id a =? id) (articleTable w)), w).

(** [prisma.page({name})]: the row or [null]. *)
Definition page (name : string) : M (option Page) :=
  fun w => (Return (find (fun p => page_name p =? name) (pageTable w)), w).

Inductive UserWhereUniqueInput : Type :=
| by_id (id : ID)
| by_email (email : string).

Definition selects (u : UserWhereUniqueInput) (x : User) : bool :=
  match u with
  | by_id i => user_id x =? i
  | by_email e => user_email x =? e
  end.

(** [prisma.user(where)]: the row or [null]. *)
Definition user (u : UserWhereUniqueInput) : M (option User) :=
  fun w => (Return (find (selects u) (userTable w)), w).

(** [prisma.$exists.user({name})]. *)
Definition exists_user (name : string) : M bool :=
  fun w => (Return (existsb (fun x => user_name x =? name) (userTable w)), w).

(** Identifiers handed out by the store. *)
Definition cuid (n : nat) : ID :=
  "c" ++ NilEmpty.string_of_uint (Nat.to_uint n).

(** The store after a create: one table is replaced, the allocator moves
    on. *)
Definition set_users (w : World) (us : list User) : World :=
  mkWorld us (articleTable w) (commentTable w) (pageTable w)
          (S (nextId w)) (entropy w) (clock w).

Definition set_articles (w : World) (ars : list Article) : World :=
  mkWorld (userTable w) ars (commentTable w) (pageTable w)
          (S (nextId w)) (entropy w) (clock w).

Definition set_comments (w : World) (cs : list Comment) : World :=
  mkWorld (userTable w) (articleTable w) cs (pageTable w)
          (S (nextId w)) (entropy w) (clock w).

Record UserCreateInput : Type := mkUserCreate {
  uc_name : string;
  uc_email : string;
  uc_pwHash : string
}.

Definition unique_violation (model field : string) : exn :=
  Error ("A unique constraint would be violated on " ++ model
         ++ ". Details: Field name = " ++ field).

(** [prisma.createUser(data)]: appends the row under a new identifier and
    returns it.  The e-mail is a unique field of the user ([login] selects
    the user by it with [prisma.user({ email })]): a write that would repeat
    a stored e-mail is refused by the store and nothing is written. *)
Definition createUser (d : UserCreateInput) : M User :=
  fun w =>
    if existsb (fun x => user_email x =? uc_email d) (userTable w)
    then (Throw (unique_violation "User" "email"), w)
    else
      let u := mkUser (cuid (nextId w)) (uc_name d) (uc_email d) (uc_pwHash d) in
      (Return u, set_users w (userTable w ++ [u])).

(** [tags: { set: [...] }]: the scalar list is the given one. *)
Record TagsInput : Type := mkTags { set : list string }.

Record ArticleCreateInput : Type := mkArticleCreate {
  ac_title : string;
  ac_summary : string;
  ac_content : string;
  ac_tags : TagsInput
}.

(** Modelled from the spec: the datamodel's default for the draft flag,
    which is not among the sources ("creates article with draft=true
    implicitly (server default)"). *)
Definition default_draft : bool := true.

(** [prisma.createArticle(data)]. *)
Definition createArticle (d : ArticleCreateInput) : M Article :=
  fun w =>
    let a := mkArticle (cuid (nextId w)) (ac_title d) (ac_summary d)
                       (ac_content d) (set (ac_tags d)) default_draft in
    (Return a, set_articles w (articleTable w ++ [a])).

(** [{ connect: { id } }]: a relation to an existing row. *)
Record Connect : Type := mkConnect { connect : ID }.

Record CommentCreateInput : Type := mkCommentCreate {
  cc_content : string;
  cc_user : Connect;
  cc_article : Connect
}.

Definition no_node (model : string) (id : ID) : exn :=
  Error ("No Node for the model " ++ model ++ " with value " ++ id
         ++ " for id found.").

(** [prisma.createComment(data)]: both relations must name stored rows;
    otherwise the store rejects the write. *)
Definition createComment (d : CommentCreateInput) : M Comment :=
  fun w =>
    let uid := connect (cc_user d) in
    let aid := connect (cc_article d) in
    if negb (existsb (fun u => user_id u =? uid) (userTable w))
    then (Throw (no_node "User" uid), w)
    else if negb (existsb (fun a => article_id a =? aid) (articleTable w))
    then (Throw (no_node "Article" aid), w)
    else
      let c := mkComment (cuid (nextId w)) (cc_content d) uid aid in
      (Return c, set_comments w (commentTable w ++ [c])).

(** [prisma.comments({skip, first})]. *)
Definition comments (skip first : option Z) : M (list Comment) :=
  fun w => (Return (paginate skip first (commentTable w)), w).

(** [prisma.pages()]. *)
Definition pages : M (list Page) :=
  fun w => (Return (pageTable w), w).

(** The store together with its file table, which only [files] reads. *)
Record Store : Type := mkStore {
  tables : World;
  fileTable : list File
}.

(** [FileWhereInput], on the relation filters [page: { id }] and
    [article: { id }]: the file has that parent, under that identifier. *)
Inductive FileWhereInput : Type := mkFileWhere {
  page_id_is : option ID;
  article_id_is : option ID;
  file_OR : option (list FileWhereInput)
}.

Definition parent_is (parent : option ID) (id : ID) : bool :=
  match parent with
  | Some p => p =? id
  | None => false
  end.

Fixpoint matches_file (w : FileWhereInput) (f : File) : bool :=
  match w with
  | mkFileWhere p a o =>
      given p (parent_is (file_page f))
      && given a (parent_is (file_article f))
      && match o with
         | Some ws => existsb (fun w' => matches_file w' f) ws
         | None => true
         end
  end.

(** [prisma.files({where})]. *)
Definition files (where_ : FileWhereInput) : Eff Store (list File) :=
  fun s => (Return (filter (matches_file where_) (fileTable s)), s).

End Prisma.

(** ** Process-wide configuration and the two cryptographic libraries

    [APP_SECRET] and [ADMIN_USER] are constants of [utils], which is not among
    the sources; bcryptjs and jsonwebtoken are third-party code.  All of them
    are taken as given. *)

Record Payload : Type := mkPayload { userId : ID }.

Record Env : Type := mkEnv {
  APP_SECRET : string;
  ADMIN_USER : string;
  (* bcrypt.hash(data, rounds), on the randomness its salt is drawn from *)
  bcrypt_hash : string -> nat -> nat -> string;
  (* bcrypt.compare(data, hash) *)
  bcrypt_compare : string -> string -> bool;
  (* jwt.sign(payload, secret), at the issue time (iat, in seconds) that the
     library stamps into the token *)
  jwt_sign : Payload -> string -> nat -> string;
  (* jwt.verify(token, secret): the payload, or [None] where it throws *)
  jwt_verify : string -> string -> option Payload
}.

Module bcrypt.
(** [await bcrypt.hash(data, rounds)]: draws a salt. *)
Definition hash (env : Env) (data : string) (rounds : nat) : M string :=
  fun w =>
    (Return (bcrypt_hash env data rounds (entropy w)),
     mkWorld (userTable w) (articleTable w) (commentTable w) (pageTable w)
             (nextId w) (S (entropy w)) (clock w)).

(** [await bcrypt.compare(data, hash)]. *)
Definition compare (env : Env) (data hash : string) : M bool :=
  ret (bcrypt_compare env data hash).
End bcrypt.

Module jwt.
(** [jwt.sign(payload, secret)]: reads the clock for the token's issue
    time. *)
Definition sign (env : Env) (payload : Payload) (secret : string) : M string :=
  fun w => (Return (jwt_sign env payload secret (clock w)), w).
End jwt.

(** The request context: the store is the monad's state, the request carries
    the session token, if any. *)
Record Context : Type := mkContext {
  authorization : option string
}.

(** ** [utils]: the authorization guard *)

Module Utils.

Definition not_authenticated : exn := Error "Not authenticated".
Definition not_authorized : exn := Error "Not authorized".

(** Modelled from the spec: [getUserId] of [utils], which is not among the
    sources ("extracts and verifies the signed token from the request;
    fails with UnauthenticatedError if absent or invalid; returns the
    embedded user identifier").  The message of the error is not given by
    the spec. *)
Definition getUserId (env : Env) (context : Context) : M ID :=
  match authorization context with
  | None => throw not_authenticated
  | Some token =>
      match jwt_verify env token (APP_SECRET env) with
      | Some payload => ret (userId payload)
      | None => throw not_authenticated
      end
  end.

(** Modelled from the spec: [assertAdminUser] of [utils], which is not among
    the sources ("resolves the current user, fails with NotAuthorizedError
    unless the user's name equals the process-wide configured admin name";
    of [article]: "requires admin authorization (fails with
    NotAuthorizedError otherwise)").  NotAuthorizedError is the one failure
    the guard has: a request whose current user cannot be resolved (no
    token, a token that does not verify, a user the store does not hold) is
    refused with it like any user who is not the administrator. *)
Definition assertAdminUser (env : Env) (context : Context) : M unit :=
  fun w =>
    match getUserId env context w with
    | (Return id, w') =>
        (user <- Prisma.user (Prisma.by_id id) ;;
         match user with
         | Some u =>
             if user_name u =? ADMIN_USER env then ret tt
             else throw not_authorized
         | None => throw not_authorized
         end) w'
    | (Throw _, w') => (Throw not_authorized, w')
    end.

End Utils.

(** A property read [x.p] on a value that may be [null]. *)
Definition read {A B} (p : string) (x : option A) (get : A -> B) : M B :=
  match x with
  | Some a => ret (get a)
  | None => throw (TypeError ("Cannot read property '" ++ p ++ "' of null"))
  end.

(** ** Query resolvers *)

Module Query.

Record PublishedArticlesArgs : Type := mkPublishedArticlesArgs {
  args_filter : option string;
  args_skip : option Z;
  args_first : option Z
}.

Definition publishedArticles (args : PublishedArticlesArgs)
           (context : Context) : M (list Article) :=
  let where_ := Prisma.mkWhere (Some false) None None None in
  let where_ :=
    if truthy (args_filter args)
    then Prisma.mkWhere (Prisma.draft where_) (Prisma.title_contains where_)
           (Prisma.summary_contains where_)
           (Some [ Prisma.mkWhere None (args_filter args) None None;
                   Prisma.mkWhere None None (args_filter args) None ])
    else where_ in
  Prisma.articles
    (Prisma.mkQuery (Some where_) (args_skip args) (args_first args)).

Record ArticleArgs : Type := mkArticleArgs { args_id : ID }.

Definition article (env : Env) (args : ArticleArgs) (context : Context)
  : M (option Article) :=
  article <- Prisma.article (args_id args) ;;
  draft <- read "draft" article article_draft ;;
  (if draft then Utils.assertAdminUser env context else ret tt) ;;;
  ret article.

Record PageArgs : Type := mkPageArgs { args_name : string }.

Definition page (args : PageArgs) (context : Context) : M (option Page) :=
  Prisma.page (args_name args).

Record AllArticlesArgs : Type := mkAllArticlesArgs {
  all_skip : option Z;
  all_first : option Z
}.

Definition allArticles (args : AllArticlesArgs) (context : Context)
  : M (list Article) :=
  Prisma.articles (Prisma.mkQuery None (all_skip args) (all_first args)).

Record CommentsArgs : Type := mkCommentsArgs {
  comments_skip : option Z;
  comments_first : option Z
}.

Definition comments (args : CommentsArgs) (context : Context)
  : M (list Comment) :=
  Prisma.comments (comments_skip args) (comments_first args).

Definition pages (context : Context) : M (list Page) :=
  Prisma.pages.

Record FilesArgs : Type := mkFilesArgs { args_documentId : ID }.

Definition files (args : FilesArgs) (context : Context)
  : Eff Prisma.Store (list File) :=
  Prisma.files
    (Prisma.mkFileWhere None None
       (Some [ Prisma.mkFileWhere (Some (args_documentId args)) None None;
               Prisma.mkFileWhere None (Some (args_documentId args)) None ])).

End Query.

(** ** Mutation resolvers *)

Module Mutation.

Record AuthPayload : Type := mkAuthPayload {
  token : string;
  user : User
}.

Record SignupArgs : Type := mkSignupArgs {
  signup_name : string;
  signup_email : string;
  signup_password : string
}.

Definition signup (env : Env) (args : SignupArgs) (context : Context)
  : M AuthPayload :=
  exists_ <- Prisma.exists_user (signup_name args) ;;
  if exists_ : bool then throw (Error "User already exists")
  else
    pwHash <- bcrypt.hash env (signup_password args) 10 ;;
    user <- Prisma.createUser
              (Prisma.mkUserCreate (signup_name args) (signup_email args)
                                   pwHash) ;;
    token <- jwt.sign env (mkPayload (user_id user)) (APP_SECRET env) ;;
    ret (mkAuthPayload token user).

Record LoginArgs : Type := mkLoginArgs {
  login_email : string;
  login_password : string
}.

Definition login (env : Env) (args : LoginArgs) (context : Context)
  : M AuthPayload :=
  user <- Prisma.user (Prisma.by_email (login_email args)) ;;
  match user with
  | None => throw (Error "No such user found")
  | Some user =>
      valid <- bcrypt.compare env (login_password args) (user_pwHash user) ;;
      if negb valid then throw (Error "Invalid password")
      else
        token <- jwt.sign env (mkPayload (user_id user)) (APP_SECRET env) ;;
        ret (mkAuthPayload token user)
  end.

Record PostArticleArgs : Type := mkPostArticleArgs {
  args_title : string;
  args_summary : string;
  args_content : string;
  args_tags : list string
}.

Definition postArticle (env : Env) (args : PostArticleArgs)
           (context : Context) : M Article :=
  userId <- Utils.getUserId env context ;;
  user <- Prisma.user (Prisma.by_id userId) ;;
  name <- read "name" user user_name ;;
  if negb (name =? ADMIN_USER env) then throw (Error "Not authorized")
  else
    Prisma.createArticle
      (Prisma.mkArticleCreate (args_title args) (args_summary args)
         (args_content args) (Prisma.mkTags (args_tags args))).

Record PostCommentArgs : Type := mkPostCommentArgs {
  args_comment : string;     (* args.content *)
  args_articleId : ID
}.

Definition postComment (env : Env) (args : PostCommentArgs)
           (context : Context) : M Comment :=
  userId <- Utils.getUserId env context ;;
  user <- Prisma.user (Prisma.by_id userId) ;;
  name <- read "name" user user_name ;;
  if negb (name =? ADMIN_USER env) then throw (Error "Not authorized")
  else
    Prisma.createComment
      (Prisma.mkCommentCreate (args_comment args) (Prisma.mkConnect userId)
         (Prisma.mkConnect (args_articleId args))).

End Mutation.

(** ** The admin client *)

(** JSON values, as the GraphQL client hands them to the callbacks. *)
Module Json.

Inductive value : Type :=
| JUndefined
| JNull
| JBool (b : bool)
| JNum (n : Z)
| JStr (s : string)
| JArr (items : list value)
| JObj (fields : list (string * value)).

Definition typeName (v : value) : string :=
  match v with
  | JNull => "null"
  | _ => "undefined"
  end.

(** The member read [v.p].  On [undefined] and [null] the runtime throws;
    an object yields the field or [undefined].  Built-in properties of
    primitives and arrays are not modelled: they read as [undefined]. *)
Definition get (v : value) (p : string) : result value :=
  match v with
  | JUndefined | JNull =>
      Throw (TypeError ("Cannot read property '" ++ p ++ "' of " ++ typeName v))
  | JObj fields =>
      match find (fun kv => fst kv =? p) fields with
      | Some kv => Return (snd kv)
      | None => Return JUndefined
      end
  | _ => Return JUndefined
  end.

(** String conversion, as a template literal applies it. *)
Fixpoint toString (v : value) : string :=
  match v with
  | JUndefined => "undefined"
  | JNull => "null"
  | JBool b => if b then "true" else "false"
  | JNum n => NilEmpty.string_of_int (Z.to_int n)
  | JStr s => s
  | JArr items =>
      (fix join (l : list value) : string :=
         match l with
         | [] => ""
         | x :: rest =>
             let sx := match x with
                       | JUndefined | JNull => ""
                       | _ => toString x
                       end in
             match rest with
             | [] => sx
             | _ => sx ++ "," ++ join rest
             end
         end) items
  | JObj _ => "[object Object]"
  end.

End Json.

(** Modelled from the spec: the [LoggingService] of the client, which is not
    among the sources ("accepts free-text event strings; fire-and-forget,
    must never throw back into calling code"). *)
Module LoggingService.
Definition Logger : Type := list string.
Definition add (message : string) : Eff Logger unit :=
  fun log => (Return tt, (log ++ [message])%list).
End LoggingService.

(** Observables and the two RxJS operators of the facade. *)
Module Rx.
Import LoggingService.

Inductive Notification (A : Type) : Type :=
| next (v : A)
| error (e : exn)
| complete.
Arguments next {A} v.
Arguments error {A} e.
Arguments complete {A}.

(** What a subscriber is delivered, in order, and what the subscription did
    to the logger. *)
Definition Observable (A : Type) : Type :=
  Logger -> list (Notification A) * Logger.

(** An observable that delivers the given notifications and logs nothing. *)
Definition from {A} (ns : list (Notification A)) : Observable A :=
  fun log => (ns, log).

Fixpoint map_ns {A B} (project : A -> result B) (ns : list (Notification A))
  : list (Notification B) :=
  match ns with
  | [] => []
  | next v :: rest =>
      match project v with
      | Return b => next b :: map_ns project rest
      | Throw e => [error e]
      end
  | error e :: _ => [error e]
  | complete :: _ => [complete]
  end.

(** [map(project)]: a throw of [project] becomes the error notification. *)
Definition map {A B} (project : A -> result B) (source : Observable A)
  : Observable B :=
  fun log => let (ns, log') := source log in (map_ns project ns, log').

Fixpoint tap_ns {A} (onNext : A -> Eff Logger unit)
         (onError : exn -> Eff Logger unit) (ns : list (Notification A))
  : Observable A :=
  fun log =>
    match ns with
    | [] => ([], log)
    | next v :: rest =>
        match onNext v log with
        | (Return _, log') =>
            let (out, log'') := tap_ns onNext onError rest log' in
            (next v :: out, log'')
        | (Throw e, log') => ([error e], log')
        end
    | error e :: _ =>
        match onError e log with
        | (Return _, log') => ([error e], log')
        | (Throw e', log') => ([error e'], log')
        end
    | complete :: _ => ([complete], log)
    end.

(** [tap(next, error)]: runs the callback, then forwards the notification;
    a throw of the callback is forwarded in its place. *)
Definition tap {A} (onNext : A -> Eff Logger unit)
           (onError : exn -> Eff Logger unit) (source : Observable A)
  : Observable A :=
  fun log => let (ns, log') := source log in tap_ns onNext onError ns log'.

(** [source.pipe(op1, op2)]. *)
Definition pipe {A B C} (source : Observable A)
           (op1 : Observable A -> Observable B)
           (op2 : Observable B -> Observable C) : Observable C :=
  op2 (op1 source).

End Rx.

(** A pure computation that may throw, run inside effectful code. *)
Definition lift {S A} (r : result A) : Eff S A := fun s => (r, s).

Definition and_then {A B} (r : result A) (k : A -> result B) : result B :=
  match r with
  | Return a => k a
  | Throw e => Throw e
  end.

Module ArticleService.
Import Json LoggingService Rx.

(** The client's [Article] type, on the fields the facade reads. *)
Record Article : Type := mkArticle {
  id : string;
  title : string;
  summary : string;
  content : string;
  tags : list string
}.

(** The GraphQL documents of the service. *)
Inductive Document : Type :=
| GetArticleGql
| GetAllArticlesGql
| GetCommentsGql
| DeleteCommentGql
| UpdateArticleGql
| PostArticleGql
| PublishArticleGql
| DeleteArticleGql.

Record RefetchQuery : Type := mkRefetch { query : Document }.

Record MutationOptions : Type := mkMutationOptions {
  mutation : Document;
  variables : value;
  refetchQueries : list RefetchQuery
}.

(** [apollo.mutate(options)]: the observable of the server's answer. *)
Definition Apollo : Type := MutationOptions -> list (Notification value).

Definition strings (l : list string) : value := JArr (List.map JStr l).

Definition postArticle (apollo : Apollo) (article : Article)
  : Observable value :=
  pipe
    (from (apollo
       (mkMutationOptions PostArticleGql
          (JObj [ ("title", JStr (title article));
                  ("summary", JStr (summary article));
                  ("content", JStr (content article));
                  ("tags", strings (tags article)) ])
          [ mkRefetch GetAllArticlesGql ])))
    (map (fun result =>
            and_then (get result "data") (fun data => get data "postArticle")))
    (tap (fun result =>
            data <- lift (get result "data") ;;
            article <- lift (get data "postArticle") ;;
            id <- lift (get article "id") ;;
            add ("Created article, id=" ++ toString id))
         (fun _ => add "Failed to create article")).

(** [this.updateArticleGql.mutate(variables)] is [apollo.mutate] on the
    document of the class, with no query to refetch. *)
Definition updateArticle (apollo : Apollo) (article : Article)
  : Observable value :=
  pipe
    (from (apollo
       (mkMutationOptions UpdateArticleGql
          (JObj [ ("id", JStr (id article));
                  ("title", JStr (title article));
                  ("summary", JStr (summary article));
                  ("content", JStr (content article));
                  ("tags", strings (tags article)) ])
          [])))
    (map (fun result =>
            and_then (get result "data") (fun data => get data "updateArticle")))
    (tap (fun _ => add ("Saved article, id=" ++ id article))
         (fun _ => add ("Failed to save article, id=" ++ id article))).

(** [query.watch(variables).valueChanges]: the live observable of a query's
    results. *)
Definition Watch : Type := Document -> value -> list (Notification value).

Definition getArticle (watch : Watch) (id : string) : Observable value :=
  pipe
    (from (watch GetArticleGql (JObj [ ("id", JStr id) ])))
    (map (fun result =>
            and_then (get result "data") (fun data => get data "article")))
    (tap (fun _ => add ("Fetched article, id=" ++ id))
         (fun _ => add ("Failed to fetch article, id=" ++ id))).

Definition getArticles (watch : Watch) : Observable value :=
  pipe
    (from (watch GetAllArticlesGql JUndefined))
    (map (fun result =>
            and_then (get result "data") (fun data => get data "allArticles")))
    (tap (fun _ => add "Fetched articles")
         (fun _ => add "Failed to fetch articles")).

Definition getComments (watch : Watch) : Observable value :=
  pipe
    (from (watch GetCommentsGql JUndefined))
    (map (fun result =>
            and_then (get result "data") (fun data => get data "comments")))
    (tap (fun _ => add "Fetched comments")
         (fun _ => add "Failed to fetch comments")).

Definition publishArticle (apollo : Apollo) (id : string) (publish : bool)
  : Observable value :=
  pipe
    (from (apollo
       (mkMutationOptions PublishArticleGql
          (JObj [ ("id", JStr id); ("publish", JBool publish) ])
          [])))
    (map (fun result =>
            and_then (get result "data") (fun data => get data "publishArticle")))
    (tap (fun _ =>
            let verb := if publish then "Published" else "Unpublished" in
            add (verb ++ " article, id=" ++ id))
         (fun _ =>
            let verb := if publish then "Publish" else "Unpublish" in
            add ("Failed to " ++ verb ++ " article, id=" ++ id))).

Definition deleteArticle (apollo : Apollo) (id : string) : Observable value :=
  pipe
    (from (apollo
       (mkMutationOptions DeleteArticleGql
          (JObj [ ("id", JStr id) ])
          [ mkRefetch GetAllArticlesGql ])))
    (map (fun result =>
            and_then (get result "data") (fun data => get data "deleteArticle")))
    (tap (fun _ => add ("Deleted article, id=" ++ id))
         (fun _ => add ("Failed to delete article, id=" ++ id))).

Definition deleteComment (apollo : Apollo) (id : string) : Observable value :=
  pipe
    (from (apollo
       (mkMutationOptions DeleteCommentGql
          (JObj [ ("id", JStr id) ])
          [ mkRefetch GetCommentsGql ])))
    (map (fun result =>
            and_then (get result "data") (fun data => get data "deleteComment")))
    (tap (fun _ => add ("Deleted comment, id=" ++ id))
         (fun _ => add ("Failed to delete comment, id=" ++ id))).

End ArticleService.

(** The facade's operations with the logging taken out of the pipeline: the
    reference the logged ones are compared with. *)
Module Unlogged.
Import Json Rx ArticleService.

Definition postArticle (apollo : Apollo) (article : Article)
  : Observable value :=
  map (fun result =>
         and_then (get result "data") (fun data => get data "postArticle"))
    (from (apollo
       (mkMutationOptions PostArticleGql
          (JObj [ ("title", JStr (title article));
                  ("summary", JStr (summary article));
                  ("content", JStr (content article));
                  ("tags", strings (tags article)) ])
          [ mkRefetch GetAllArticlesGql ]))).

Definition updateArticle (apollo : Apollo) (article : Article)
  : Observable value :=
  map (fun result =>
         and_then (get result "data") (fun data => get data "updateArticle"))
    (from (apollo
       (mkMutationOptions UpdateArticleGql
          (JObj [ ("id", JStr (id article));
                  ("title", JStr (title article));
                  ("summary", JStr (summary article));
                  ("content", JStr (content article));
                  ("tags", strings (tags article)) ])
          []))).

End Unlogged.

(** ** Sample data, for running the model *)

Module Sample.

(** A stand-in for the two libraries: a "hash" that keeps the salt and the
    data apart, a "token" that is the secret, the identifier and the issue
    time, with dots between. *)
Definition env : Env :=
  mkEnv "app-secret" "rob"
    (fun data rounds salt =>
       "$2a$" ++ NilEmpty.string_of_uint (Nat.to_uint rounds) ++ "$"
              ++ NilEmpty.string_of_uint (Nat.to_uint salt) ++ "$" ++ data)
    (fun data hash => contains hash ("$" ++ data))
    (fun payload secret iat =>
       secret ++ "." ++ userId payload ++ "."
              ++ NilEmpty.string_of_uint (Nat.to_uint iat))
    (fun token secret =>
       if String.prefix (secret ++ ".") token
       then
         let rest := substring (S (String.length secret))
                               (String.length token) token in
         match index 0 "." rest with
         | Some n => Some (mkPayload (substring 0 n rest))
         | None => None
         end
       else None).

Definition rob : User := mkUser "c0" "rob" "rob@example.org" "$2a$10$0$pw".
Definition eve : User := mkUser "c1" "eve" "eve@example.org" "$2a$10$1$1234".

Definition published : Article :=
  mkArticle "c2" "Ray casting" "A maze renderer" "..." ["graphics"] false.
Definition unpublished : Article :=
  mkArticle "c3" "Ray tracing" "Work in progress" "..." [] true.

Definition about : Page := mkPage "c4" "about" "About this site".

Definition world : World :=
  mkWorld [rob; eve] [published; unpublished] [] [about] 5 2 1000.

Definition anonymous : Context := mkContext None.
Definition as_rob : Context := mkContext (Some "app-secret.c0.900").
Definition as_eve : Context := mkContext (Some "app-secret.c1.900").
(** A token that verifies, for a user the store does not hold. *)
Definition as_ghost : Context := mkContext (Some "app-secret.c9.900").

(** The server's answer to [postArticle] and [updateArticle]: the fields the
    mutation's document selects. *)
Definition payload : Json.value :=
  Json.JObj [ ("id", Json.JStr "c5"); ("draft", Json.JBool true);
              ("modifiedAt", Json.JNull); ("title", Json.JStr "Title");
              ("summary", Json.JStr "Summary");
              ("content", Json.JStr "Content");
              ("tags", Json.JArr [Json.JStr "a"; Json.JStr "b"]) ].

Definition answers (operation : string) : ArticleService.Apollo :=
  fun _ => [ Rx.next (Json.JObj [ ("data", Json.JObj [ (operation, payload) ]) ]);
             Rx.complete ].

Definition fails : ArticleService.Apollo :=
  fun _ => [ Rx.error (Error "Network error: Failed to fetch") ].

Definition draft_article : ArticleService.Article :=
  ArticleService.mkArticle "c5" "Title" "Summary" "Content" ["a"; "b"].

Definition attachments : list File :=
  [ mkFile "c6" "maze" "png" None (Some "c2");
    mkFile "c7" "logo" "svg" (Some "c4") None;
    mkFile "c8" "sketch" "jpg" None (Some "c3") ].

Definition store : Prisma.Store := Prisma.mkStore world attachments.

(** A live query that delivers two results, the second after a refetch. *)
Definition live (operation : string) : ArticleService.Watch :=
  fun _ _ =>
    [ Rx.next (Json.JObj [ ("data", Json.JObj [ (operation, Json.JArr []) ]) ]);
      Rx.next (Json.JObj [ ("data", Json.JObj [ (operation, Json.JArr [payload]) ]) ]) ].

(** An answer that carries no data. *)
Definition answers_null : ArticleService.Apollo :=
  fun _ => [ Rx.next (Json.JObj [ ("data", Json.JNull) ]); Rx.complete ].

End Sample.

(** ** Vocabulary of the statements *)

(** [sub] occurs in [s]: some text, then [sub] character for character, then
    some text. *)
Definition occurs_in (sub s : string) : Prop :=
  exists pre post, s = pre ++ sub ++ post.

(** A run that ends in an error of the given kind. *)
Definition fails_with {A} (run : result A * World) (k : ErrorKind) : Prop :=
  exists e w', run = (Throw e, w') /\ errorKind e = Some k.

(** The request's token verifies and names a stored user who is the
    administrator. *)
Definition caller_is_admin (env : Env) (context : Context) (w : World) : Prop :=
  exists id u,
    Utils.getUserId env context w = (Return id, w) /\
    Prisma.user (Prisma.by_id id) w = (Return (Some u), w) /\
    user_name u = ADMIN_USER env.

(** A callback that only logs never throws. *)
Definition quiet {A} (callback : A -> Eff LoggingService.Logger unit) : Prop :=
  forall v log, exists log', callback v log = (Return tt, log').

(** The articles [publishedArticles] selects: not a draft and, under a
    filter, with the filter in the title or in the summary. *)
Definition shown (filter : option string) (a : Article) : bool :=
  negb (article_draft a) &&
  match filter with
  | Some f => contains (article_title a) f || contains (article_summary a) f
  | None => true
  end.

(** A table after a resolver ran: as it was, or with one row appended. *)
Definition grows_by {A} (old new : list A) : Prop :=
  new = old \/ exists x, new = (old ++ [x])%list.

(** The lines a logging [tap] writes for the notifications it delivers: one
    per value, one for an error. *)
Fixpoint entries {A} (onNext onError : string) (ns : list (Rx.Notification A))
  : list string :=
  match ns with
  | Rx.next _ :: rest => onNext :: entries onNext onError rest
  | Rx.error _ :: _ => [onError]
  | _ => []
  end.

(** The store at another time: the tables as they are, the clock moved. *)
Definition at_time (w : World) (t : nat) : World :=
  mkWorld (userTable w) (articleTable w) (commentTable w) (pageTable w)
          (nextId w) (entropy w) t.

(** The projection [result => result.data.<field>] of the facade's [map]s. *)
Definition data_field (field : string) (answer : Json.value)
  : result Json.value :=
  and_then (Json.get answer "data") (fun data => Json.get data field).

(** * Properties *)

(** ** Strings *)

Lemma eqb_true (a b : string) : (a =? b) = true <-> a = b.
Proof. apply String.eqb_eq. Qed.

Lemma prefix_app (p s : string) :
  String.prefix p s = true <-> exists post, s = p ++ post.
Proof.
  revert s; induction p as [|c p IH]; intros s; simpl.
  - split; [intros _; exists s; reflexivity | intros _; destruct s; reflexivity].
  - destruct s as [|d s].
    + split; [discriminate | intros [post H]; discriminate].
    + simpl. destruct (Ascii.ascii_dec c d) as [e|ne].
      * subst d. rewrite IH. split; intros [post H]; exists post.
        -- now rewrite H.
        -- now injection H.
      * split; [discriminate | intros [post H]; injection H; intros; congruence].
Qed.


Lemma contains_occurs (s sub : string) :
  contains s sub = true <-> occurs_in sub s.
Proof.
  unfold occurs_in. induction s as [|c s IH]; cbn [contains].
  - rewrite orb_false_r, prefix_app. split.
    + intros [post H]. exists "", post. exact H.
    + intros [pre [post H]]. destruct pre; simpl in H.
      * exists post. exact H.
      * discriminate.
  - rewrite orb_true_iff, prefix_app, IH. split.
    + intros [[post H] | [pre [post H]]].
      * exists "", post. exact H.
      * exists (String c pre), post. simpl. now rewrite H.
    + intros [pre [post H]]. destruct pre as [|d pre]; simpl in H.
      * left. exists post. exact H.
      * right. exists pre, post. now injection H.
Qed.

Lemma occurs_in_empty (s : string) : occurs_in "" s.
Proof. exists "", s. reflexivity. Qed.

Example contains_is_case_sensitive :
  contains "Ray casting" "cast" = true /\ contains "Ray casting" "Cast" = false.
Proof. split; reflexivity. Qed.

(** ** Lists and lookups *)

Lemma In_firstn {A} (n : nat) (l : list A) (x : A) :
  In x (firstn n l) -> In x l.
Proof.
  revert l; induction n as [|n IH]; intros [|y l]; simpl; try tauto.
  intros [H|H]; [left; exact H | right; exact (IH _ H)].
Qed.

Lemma In_skipn {A} (n : nat) (l : list A) (x : A) :
  In x (skipn n l) -> In x l.
Proof.
  revert l; induction n as [|n IH]; intros [|y l]; simpl; try tauto.
  intros H; right; exact (IH _ H).
Qed.

Lemma In_paginate {A} (skip first : option Z) (rows : list A) (x : A) :
  In x (Prisma.paginate skip first rows) -> In x rows.
Proof.
  unfold Prisma.paginate. intros H.
  destruct first as [n|]; [apply In_firstn in H|];
    (destruct skip as [m|]; [apply In_skipn in H|]); exact H.
Qed.

Lemma find_absent {A} (p : A -> bool) (l : list A) :
  (forall x, In x l -> p x = false) -> find p l = None.
Proof.
  induction l as [|y l IH]; simpl; intros H; [reflexivity|].
  rewrite (H y (or_introl eq_refl)). apply IH. intros x Hx. apply H. now right.
Qed.

Lemma find_unique {A} (p : A -> bool) (l : list A) (x : A) :
  In x l -> p x = true -> (forall y, In y l -> p y = true -> y = x) ->
  find p l = Some x.
Proof.
  intros Hin Hp Huniq. destruct (find p l) as [y|] eqn:E.
  - apply find_some in E. f_equal. apply Huniq; tauto.
  - rewrite (find_none _ _ E x Hin) in Hp. discriminate.
Qed.

Lemma existsb_absent {A} (p : A -> bool) (l : list A) :
  (forall x, In x l -> p x = false) -> existsb p l = false.
Proof.
  induction l as [|y l IH]; simpl; intros H; [reflexivity|].
  rewrite (H y (or_introl eq_refl)). apply IH. intros x Hx. apply H. now right.
Qed.

(** The store's single-row lookups, read back as facts about the tables. *)

Lemma article_lookup (id : ID) (w : World) (o : option Article) :
  Prisma.article id w = (Return o, w) <->
  find (fun a => article_id a =? id) (articleTable w) = o.
Proof. unfold Prisma.article. split; [now intros [= ->] | now intros ->]. Qed.

Lemma user_lookup (u : Prisma.UserWhereUniqueInput) (w : World) (o : option User) :
  Prisma.user u w = (Return o, w) <-> find (Prisma.selects u) (userTable w) = o.
Proof. unfold Prisma.user. split; [now intros [= ->] | now intros ->]. Qed.

(** ** Query resolvers *)

(** C1. Whatever the filter, skip and first arguments, [publishedArticles]
    returns, without touching the store, stored articles whose draft flag is
    false; and when a filter is supplied, each of them has the filter as a
    (case-sensitive) substring of its title or of its summary. *)
Theorem publishedArticles_only_published
        (args : Query.PublishedArticlesArgs) (context : Context) (w : World) :
  exists l,
    Query.publishedArticles args context w = (Return l, w) /\
    forall a, In a l ->
      In a (articleTable w) /\
      article_draft a = false /\
      forall f, Query.args_filter args = Some f ->
        occurs_in f (article_title a) \/ occurs_in f (article_summary a).
Proof.
  unfold Query.publishedArticles, Prisma.articles. cbn [Prisma.q_where
    Prisma.q_skip Prisma.q_first]. eexists. split; [reflexivity|].
  intros a Hin. apply In_paginate, filter_In in Hin. destruct Hin as [Hst Hm].
  split; [exact Hst|].
  destruct (truthy (Query.args_filter args)) eqn:Ht; cbn in Hm.
  - rewrite !andb_true_iff, orb_false_r, orb_true_iff in Hm.
    destruct Hm as [[[Hd _] _] Hor].
    split; [now apply Bool.eqb_prop in Hd|].
    intros f Hf. rewrite Hf in Hor. cbn in Hor. rewrite !andb_true_r in Hor.
    rewrite !contains_occurs in Hor. exact Hor.
  - rewrite !andb_true_r in Hm. split; [now apply Bool.eqb_prop in Hm|].
    intros f Hf. rewrite Hf in Ht. cbn in Ht.
    apply negb_false_iff, eqb_true in Ht. subst f. left. apply occurs_in_empty.
Qed.


Example publishedArticles_on_sample :
  fst (Query.publishedArticles
         (Query.mkPublishedArticlesArgs (Some "Ray") None None)
         Sample.anonymous Sample.world) = Return [Sample.published] /\
  fst (Query.publishedArticles
         (Query.mkPublishedArticlesArgs (Some "ray") None None)
         Sample.anonymous Sample.world) = Return [] /\
  fst (Query.publishedArticles
         (Query.mkPublishedArticlesArgs None (Some 1%Z) (Some 5%Z))
         Sample.anonymous Sample.world) = Return [].
Proof. repeat split. Qed.

Lemma getUserId_pure (env : Env) (context : Context) (w : World) :
  snd (Utils.getUserId env context w) = w.
Proof.
  unfold Utils.getUserId.
  destruct (authorization context) as [t|]; [|reflexivity].
  destruct (jwt_verify env t (APP_SECRET env)); reflexivity.
Qed.

Lemma getUserId_throws (env : Env) (context : Context) (w : World) (e : exn) :
  fst (Utils.getUserId env context w) = Throw e -> e = Utils.not_authenticated.
Proof.
  unfold Utils.getUserId.
  destruct (authorization context) as [t|]; cbn; [|congruence].
  destruct (jwt_verify env t (APP_SECRET env)); cbn; congruence.
Qed.


Lemma getUserId_cases (env : Env) (context : Context) (w : World) :
  (exists id, Utils.getUserId env context w = (Return id, w)) \/
  Utils.getUserId env context w = (Throw Utils.not_authenticated, w).
Proof.
  unfold Utils.getUserId.
  destruct (authorization context) as [t|]; [|now right].
  destruct (jwt_verify env t (APP_SECRET env)) as [p|]; [left|now right].
  now exists (userId p).
Qed.

Lemma assertAdminUser_refuses (env : Env) (context : Context) (w : World) :
  ~ caller_is_admin env context w ->
  Utils.assertAdminUser env context w = (Throw Utils.not_authorized, w).
Proof.
  intros Hna. unfold Utils.assertAdminUser, bind.
  destruct (getUserId_cases env context w) as [[id Hid]|Hid]; rewrite Hid;
    [|reflexivity].
  unfold Prisma.user at 1.
  destruct (find (Prisma.selects (Prisma.by_id id)) (userTable w))
    as [u|] eqn:Hu; [|reflexivity].
  destruct (user_name u =? ADMIN_USER env) eqn:Hn; [|reflexivity].
  exfalso. apply Hna. exists id, u. repeat split; trivial.
  - now apply user_lookup.
  - now apply String.eqb_eq.
Qed.

(** C9. For a stored article whose draft flag is false, [article] returns
    that article and leaves the store alone whatever the request's identity
    is (anonymous included) and whatever the token machinery would say: the
    guard is not consulted. *)
Theorem article_published_ignores_identity
        (env env' : Env) (args : Query.ArticleArgs) (context context' : Context)
        (w : World) (a : Article) :
  Prisma.article (Query.args_id args) w = (Return (Some a), w) ->
  article_draft a = false ->
  Query.article env args context w = (Return (Some a), w) /\
  Query.article env' args context' w = Query.article env args context w.
Proof.
  intros Ha Hd.
  assert (H : forall e c, Query.article e args c w = (Return (Some a), w)).
  { intros e c. unfold Query.article, bind. rewrite Ha. cbn. rewrite Hd.
    reflexivity. }
  now rewrite !H.
Qed.

Lemma article_published_ignores_identity_witness :
  Query.article Sample.env (Query.mkArticleArgs "c2") Sample.anonymous
                Sample.world = (Return (Some Sample.published), Sample.world) /\
  Query.article Sample.env (Query.mkArticleArgs "c2") Sample.as_eve Sample.world
  = Query.article Sample.env (Query.mkArticleArgs "c2") Sample.anonymous
                  Sample.world.
Proof.
  apply (article_published_ignores_identity Sample.env Sample.env
           (Query.mkArticleArgs "c2") Sample.anonymous Sample.as_eve
           Sample.world Sample.published); reflexivity.
Defined.

(** C3 (as the code has it). For an id that matches no stored article, the
    store's lookup yields null and [article] reads [draft] off it: the
    resolver throws the runtime's TypeError, which is no error of the
    taxonomy, and not the NotFoundError of the specification. *)
Theorem article_missing_id_throws_TypeError
        (env : Env) (args : Query.ArticleArgs) (context : Context) (w : World) :
  (forall a, In a (articleTable w) -> article_id a <> Query.args_id args) ->
  Query.article env args context w
  = (Throw (TypeError "Cannot read property 'draft' of null"), w) /\
  ~ fails_with (Query.article env args context w) NotFoundError.
Proof.
  intros Habs.
  assert (H : Query.article env args context w
              = (Throw (TypeError "Cannot read property 'draft' of null"), w)).
  { unfold Query.article, bind.
    assert (Hf : Prisma.article (Query.args_id args) w = (Return None, w)).
    { apply article_lookup, find_absent. intros a Ha.
      apply String.eqb_neq. now apply Habs. }
    rewrite Hf. reflexivity. }
  split; [exact H|].
  rewrite H. intros [e [w' [[= <- _] Hk]]]. discriminate.
Qed.

Lemma article_missing_id_throws_TypeError_witness :
  Query.article Sample.env (Query.mkArticleArgs "c9") Sample.as_rob Sample.world
  = (Throw (TypeError "Cannot read property 'draft' of null"), Sample.world) /\
  ~ fails_with (Query.article Sample.env (Query.mkArticleArgs "c9")
                              Sample.as_rob Sample.world) NotFoundError.
Proof.
  apply (article_missing_id_throws_TypeError Sample.env
           (Query.mkArticleArgs "c9") Sample.as_rob Sample.world).
  intros a [<-|[<-|[]]]; cbn; discriminate.
Defined.







(** C7 (amended). [page] hands back the store's lookup as it is: for a name
    that matches no stored page it returns null and does not fail; when a
    page of that name exists and is the only one, that page is returned. *)
Theorem page_returns_lookup
        (args : Query.PageArgs) (context : Context) (w : World) :
  ((forall p, In p (pageTable w) -> page_name p <> Query.args_name args) ->
     Query.page args context w = (Return None, w)) /\
  (forall p,
     In p (pageTable w) ->
     page_name p = Query.args_name args ->
     (forall q, In q (pageTable w) ->
                page_name q = Query.args_name args -> q = p) ->
     Query.page args context w = (Return (Some p), w)).
Proof.
  unfold Query.page, Prisma.page. split.
  - intros Habs. rewrite find_absent; [reflexivity|].
    intros p Hp. apply String.eqb_neq. now apply Habs.
  - intros p Hin Hname Huniq. rewrite (find_unique _ _ p); auto.
    + now apply String.eqb_eq.
    + intros q Hq Hqn. apply Huniq; [exact Hq | now apply String.eqb_eq].
Qed.

Lemma page_returns_lookup_witness :
  Query.page (Query.mkPageArgs "contact") Sample.anonymous Sample.world
  = (Return None, Sample.world) /\
  Query.page (Query.mkPageArgs "about") Sample.anonymous Sample.world
  = (Return (Some Sample.about), Sample.world).
Proof.
  split.
  - apply (proj1 (page_returns_lookup (Query.mkPageArgs "contact")
                    Sample.anonymous Sample.world)).
    intros p [<-|[]]. cbn. discriminate.
  - apply (proj2 (page_returns_lookup (Query.mkPageArgs "about")
                    Sample.anonymous Sample.world) Sample.about).
    + left. reflexivity.
    + reflexivity.
    + intros q [<-|[]] _. reflexivity.
Defined.

Example page_about_and_contact :
  Query.page (Query.mkPageArgs "about") Sample.anonymous Sample.world
  = (Return (Some Sample.about), Sample.world) /\
  Query.page (Query.mkPageArgs "contact") Sample.anonymous Sample.world
  = (Return None, Sample.world).
Proof. split; reflexivity. Qed.

(** C7 as it was stated does not hold: a name no page has yields null, not a
    NotFoundError. *)
Lemma page_absent_does_not_fail :
  ~ (forall (args : Query.PageArgs) (context : Context) (w : World),
        (forall p, In p (pageTable w) -> page_name p <> Query.args_name args) ->
        fails_with (Query.page args context w) NotFoundError).
Proof.
  intros claim.
  destruct (claim (Query.mkPageArgs "contact") Sample.anonymous Sample.world)
    as [e [w' [Hrun _]]].
  - intros p [<-|[]]. cbn. discriminate.
  - discriminate Hrun.
Qed.

(** ** Mutation resolvers *)

Lemma postArticle_run (env : Env) (args : Mutation.PostArticleArgs)
      (context : Context) (w : World) (id : ID) (u : option User) :
  Utils.getUserId env context w = (Return id, w) ->
  Prisma.user (Prisma.by_id id) w = (Return u, w) ->
  Mutation.postArticle env args context w =
  match u with
  | None => (Throw (TypeError "Cannot read property 'name' of null"), w)
  | Some u =>
      if user_name u =? ADMIN_USER env
      then Prisma.createArticle
             (Prisma.mkArticleCreate (Mutation.args_title args)
                (Mutation.args_summary args) (Mutation.args_content args)
                (Prisma.mkTags (Mutation.args_tags args))) w
      else (Throw (Error "Not authorized"), w)
  end.
Proof.
  intros Hid Hu. unfold Mutation.postArticle, bind. rewrite Hid, Hu.
  destruct u as [u|]; cbn; [|reflexivity].
  destruct (user_name u =? ADMIN_USER env); reflexivity.
Qed.

Lemma postComment_run (env : Env) (args : Mutation.PostCommentArgs)
      (context : Context) (w : World) (id : ID) (u : option User) :
  Utils.getUserId env context w = (Return id, w) ->
  Prisma.user (Prisma.by_id id) w = (Return u, w) ->
  Mutation.postComment env args context w =
  match u with
  | None => (Throw (TypeError "Cannot read property 'name' of null"), w)
  | Some u =>
      if user_name u =? ADMIN_USER env
      then Prisma.createComment
             (Prisma.mkCommentCreate (Mutation.args_comment args)
                (Prisma.mkConnect id)
                (Prisma.mkConnect (Mutation.args_articleId args))) w
      else (Throw (Error "Not authorized"), w)
  end.
Proof.
  intros Hid Hu. unfold Mutation.postComment, bind. rewrite Hid, Hu.
  destruct u as [u|]; cbn; [|reflexivity].
  destruct (user_name u =? ADMIN_USER env); reflexivity.
Qed.

Lemma existsb_present {A} (p : A -> bool) (l : list A) (x : A) :
  In x l -> p x = true -> existsb p l = true.
Proof. intros Hin Hp. apply existsb_exists. now exists x. Qed.

(** C4. For an authenticated caller (the token verifies and names a stored
    user): if the user's name differs from the administrator's, [postArticle]
    and [postComment] fail with the error "Not authorized", of kind
    NotAuthorizedError, and the store is unchanged; if it is the
    administrator's, [postArticle] appends an article whose tag list is
    exactly the supplied one, and [postComment], on a stored target article,
    appends a comment linked to the calling user and to that article. *)
Theorem post_mutations_admin_only
        (env : Env) (context : Context) (w : World) (id : ID) (u : User) :
  Utils.getUserId env context w = (Return id, w) ->
  Prisma.user (Prisma.by_id id) w = (Return (Some u), w) ->
  (user_name u <> ADMIN_USER env ->
     errorKind (Error "Not authorized") = Some NotAuthorizedError /\
     (forall args, Mutation.postArticle env args context w
                   = (Throw (Error "Not authorized"), w)) /\
     (forall args, Mutation.postComment env args context w
                   = (Throw (Error "Not authorized"), w))) /\
  (user_name u = ADMIN_USER env ->
     (forall args, exists a w',
         Mutation.postArticle env args context w = (Return a, w') /\
         article_tags a = Mutation.args_tags args /\
         article_title a = Mutation.args_title args /\
         article_summary a = Mutation.args_summary args /\
         article_content a = Mutation.args_content args /\
         articleTable w' = (articleTable w ++ [a])%list /\
         commentTable w' = commentTable w /\
         userTable w' = userTable w) /\
     (forall args t,
         In t (articleTable w) ->
         article_id t = Mutation.args_articleId args ->
         exists c w',
           Mutation.postComment env args context w = (Return c, w') /\
           comment_user c = user_id u /\
           comment_article c = article_id t /\
           comment_content c = Mutation.args_comment args /\
           commentTable w' = (commentTable w ++ [c])%list /\
           articleTable w' = articleTable w /\
           userTable w' = userTable w)).
Proof.
  intros Hid Hu. split.
  - intros Hne. apply String.eqb_neq in Hne. split; [reflexivity|]. split.
    + intros args. rewrite (postArticle_run _ _ _ _ _ _ Hid Hu). now rewrite Hne.
    + intros args. rewrite (postComment_run _ _ _ _ _ _ Hid Hu). now rewrite Hne.
  - intros Heq. apply String.eqb_eq in Heq. split.
    + intros args. rewrite (postArticle_run _ _ _ _ _ _ Hid Hu), Heq.
      unfold Prisma.createArticle. do 2 eexists. split; [reflexivity|].
      cbn. tauto.
    + intros args t Ht Htid.
      rewrite (postComment_run _ _ _ _ _ _ Hid Hu), Heq.
      apply user_lookup in Hu. apply find_some in Hu. destruct Hu as [Hin Hsel].
      cbn in Hsel. unfold Prisma.createComment. cbn [Prisma.connect
        Prisma.cc_user Prisma.cc_article Prisma.cc_content].
      rewrite (existsb_present _ _ u Hin Hsel).
      rewrite (existsb_present (fun a => article_id a =? Mutation.args_articleId args)
                 _ t Ht) by now apply String.eqb_eq.
      cbn. do 2 eexists. split; [reflexivity|]. cbn.
      apply String.eqb_eq in Hsel. rewrite Hsel, Htid. tauto.
Qed.

Lemma post_mutations_admin_only_witness :
  (user_name Sample.eve <> ADMIN_USER Sample.env ->
     errorKind (Error "Not authorized") = Some NotAuthorizedError /\
     (forall args, Mutation.postArticle Sample.env args Sample.as_eve Sample.world
                   = (Throw (Error "Not authorized"), Sample.world)) /\
     (forall args, Mutation.postComment Sample.env args Sample.as_eve Sample.world
                   = (Throw (Error "Not authorized"), Sample.world))) /\
  (user_name Sample.rob = ADMIN_USER Sample.env ->
     (exists a w',
        Mutation.postArticle Sample.env
          (Mutation.mkPostArticleArgs "T" "S" "C" ["x"; "y"; "x"]) Sample.as_rob
          Sample.world = (Return a, w') /\
        article_tags a = ["x"; "y"; "x"]) /\
     (exists c w',
        Mutation.postComment Sample.env
          (Mutation.mkPostCommentArgs "hello" "c2") Sample.as_rob
          Sample.world = (Return c, w') /\
        comment_user c = "c0" /\ comment_article c = "c2")).
Proof.
  split.
  - apply (post_mutations_admin_only Sample.env Sample.as_eve Sample.world
             "c1" Sample.eve); reflexivity.
  - intros Hadmin.
    destruct (proj2 (post_mutations_admin_only Sample.env Sample.as_rob
                       Sample.world "c0" Sample.rob eq_refl eq_refl) Hadmin)
      as [Harticle Hcomment].
    split.
    + destruct (Harticle (Mutation.mkPostArticleArgs "T" "S" "C" ["x"; "y"; "x"]))
        as [a [w' [Hrun [Htags _]]]].
      exists a, w'. split; [exact Hrun | exact Htags].
    + destruct (Hcomment (Mutation.mkPostCommentArgs "hello" "c2")
                         Sample.published (or_introl eq_refl) eq_refl)
        as [c [w' [Hrun [Hu [Ha _]]]]].
      exists c, w'. split; [exact Hrun | split; [exact Hu | exact Ha]].
Defined.

(** C10. When the request's token verifies but names a user the store does
    not hold, [postArticle] and [postComment] fail with the store unchanged,
    by reading [name] off the null the lookup returned: the error is the
    runtime's TypeError, not the NotAuthorizedError of the taxonomy. *)
Theorem post_mutations_unknown_user
        (env : Env) (context : Context) (w : World) (id : ID)
        (article : Mutation.PostArticleArgs)
        (comment : Mutation.PostCommentArgs) :
  Utils.getUserId env context w = (Return id, w) ->
  (forall u, In u (userTable w) -> user_id u <> id) ->
  Mutation.postArticle env article context w
  = (Throw (TypeError "Cannot read property 'name' of null"), w) /\
  Mutation.postComment env comment context w
  = (Throw (TypeError "Cannot read property 'name' of null"), w) /\
  ~ fails_with (Mutation.postArticle env article context w) NotAuthorizedError /\
  ~ fails_with (Mutation.postComment env comment context w) NotAuthorizedError.
Proof.
  intros Hid Habs.
  assert (Hu : Prisma.user (Prisma.by_id id) w = (Return None, w)).
  { apply user_lookup, find_absent. intros u Hin. cbn.
    apply String.eqb_neq. now apply Habs. }
  rewrite (postArticle_run _ _ _ _ _ _ Hid Hu).
  rewrite (postComment_run _ _ _ _ _ _ Hid Hu).
  repeat split; intros [e [w' [[= <- _] Hk]]]; discriminate.
Qed.

Lemma post_mutations_unknown_user_witness :
  Mutation.postArticle Sample.env (Mutation.mkPostArticleArgs "T" "S" "C" [])
                       Sample.as_ghost Sample.world
  = (Throw (TypeError "Cannot read property 'name' of null"), Sample.world) /\
  Mutation.postComment Sample.env (Mutation.mkPostCommentArgs "hello" "c2")
                       Sample.as_ghost Sample.world
  = (Throw (TypeError "Cannot read property 'name' of null"), Sample.world) /\
  ~ fails_with (Mutation.postArticle Sample.env
                  (Mutation.mkPostArticleArgs "T" "S" "C" [])
                  Sample.as_ghost Sample.world) NotAuthorizedError /\
  ~ fails_with (Mutation.postComment Sample.env
                  (Mutation.mkPostCommentArgs "hello" "c2")
                  Sample.as_ghost Sample.world) NotAuthorizedError.
Proof.
  apply (post_mutations_unknown_user Sample.env Sample.as_ghost Sample.world
           "c9").
  - reflexivity.
  - intros u [<-|[<-|[]]]; cbn; discriminate.
Defined.

Lemma signup_run (env : Env) (args : Mutation.SignupArgs) (context : Context)
      (w : World) :
  Mutation.signup env args context w =
  if existsb (fun x => user_name x =? Mutation.signup_name args) (userTable w)
  then (Throw (Error "User already exists"), w)
  else if existsb (fun x => user_email x =? Mutation.signup_email args)
                  (userTable w)
  then (Throw (Prisma.unique_violation "User" "email"),
        mkWorld (userTable w) (articleTable w) (commentTable w) (pageTable w)
                (nextId w) (S (entropy w)) (clock w))
  else
    let u := mkUser (Prisma.cuid (nextId w)) (Mutation.signup_name args)
               (Mutation.signup_email args)
               (bcrypt_hash env (Mutation.signup_password args) 10 (entropy w)) in
    (Return (Mutation.mkAuthPayload
               (jwt_sign env (mkPayload (user_id u)) (APP_SECRET env) (clock w))
               u),
     mkWorld (userTable w ++ [u]) (articleTable w) (commentTable w)
             (pageTable w) (S (nextId w)) (S (entropy w)) (clock w)).
Proof.
  unfold Mutation.signup, bind, Prisma.exists_user.
  destruct (existsb _ (userTable w)); [reflexivity|].
  unfold bcrypt.hash, Prisma.createUser. cbn.
  destruct (existsb _ (userTable w)); reflexivity.
Qed.

(** C5 (amended). [signup] with a name some stored user already has fails
    with the error "User already exists", of kind DuplicateError, and leaves
    the store, the user records in particular, as it was.  With a name and
    an e-mail no stored user has, it appends one user record, whose password
    hash is bcrypt's salted hash of the supplied password at cost 10, and
    returns that user with a token signed with the process-wide secret over
    the user's identifier.  With a new name but an e-mail some stored user
    has, the store refuses the write: [signup] fails with the store's error
    and the user records are as they were. *)
Theorem signup_duplicate_or_created
        (env : Env) (args : Mutation.SignupArgs) (context : Context)
        (w : World) :
  ((exists u, In u (userTable w) /\ user_name u = Mutation.signup_name args) ->
     Mutation.signup env args context w
     = (Throw (Error "User already exists"), w) /\
     errorKind (Error "User already exists") = Some DuplicateError) /\
  ((forall u, In u (userTable w) -> user_name u <> Mutation.signup_name args) ->
   (forall u, In u (userTable w) -> user_email u <> Mutation.signup_email args) ->
     exists u w',
       Mutation.signup env args context w
       = (Return (Mutation.mkAuthPayload
                    (jwt_sign env (mkPayload (user_id u)) (APP_SECRET env)
                              (clock w)) u),
          w') /\
       userTable w' = (userTable w ++ [u])%list /\
       user_name u = Mutation.signup_name args /\
       user_email u = Mutation.signup_email args /\
       user_pwHash u
       = bcrypt_hash env (Mutation.signup_password args) 10 (entropy w)) /\
  ((forall u, In u (userTable w) -> user_name u <> Mutation.signup_name args) ->
   (exists u, In u (userTable w) /\ user_email u = Mutation.signup_email args) ->
     exists w',
       Mutation.signup env args context w
       = (Throw (Prisma.unique_violation "User" "email"), w') /\
       userTable w' = userTable w).
Proof.
  rewrite signup_run. split; [|split].
  - intros [u [Hin Hname]].
    rewrite (existsb_present _ _ u Hin) by now apply String.eqb_eq.
    split; reflexivity.
  - intros Hname Hemail. rewrite !existsb_absent.
    + do 2 eexists. split; [reflexivity|]. cbn. tauto.
    + intros u Hin. apply String.eqb_neq. now apply Hemail.
    + intros u Hin. apply String.eqb_neq. now apply Hname.
  - intros Hname [u [Hin Hemail]]. rewrite existsb_absent.
    + rewrite (existsb_present _ _ u Hin) by now apply String.eqb_eq.
      eexists. split; reflexivity.
    + intros x Hx. apply String.eqb_neq. now apply Hname.
Qed.

Lemma signup_duplicate_or_created_witness :
  (Mutation.signup Sample.env
     (Mutation.mkSignupArgs "rob" "other@example.org" "pw") Sample.anonymous
     Sample.world = (Throw (Error "User already exists"), Sample.world) /\
   errorKind (Error "User already exists") = Some DuplicateError) /\
  (exists u w',
     Mutation.signup Sample.env
       (Mutation.mkSignupArgs "bob" "bob@example.org" "pw") Sample.anonymous
       Sample.world
     = (Return (Mutation.mkAuthPayload
                  (jwt_sign Sample.env (mkPayload (user_id u))
                            (APP_SECRET Sample.env) (clock Sample.world)) u),
        w') /\
     userTable w' = (userTable Sample.world ++ [u])%list /\
     user_name u = "bob" /\
     user_email u = "bob@example.org" /\
     user_pwHash u = bcrypt_hash Sample.env "pw" 10 (entropy Sample.world)) /\
  (exists w',
     Mutation.signup Sample.env
       (Mutation.mkSignupArgs "rob2" "rob@example.org" "pw") Sample.anonymous
       Sample.world
     = (Throw (Prisma.unique_violation "User" "email"), w') /\
     userTable w' = userTable Sample.world).
Proof.
  split; [|split].
  - apply (proj1 (signup_duplicate_or_created Sample.env
                    (Mutation.mkSignupArgs "rob" "other@example.org" "pw")
                    Sample.anonymous Sample.world)).
    exists Sample.rob. split; [left|]; reflexivity.
  - apply (proj1 (proj2 (signup_duplicate_or_created Sample.env
                           (Mutation.mkSignupArgs "bob" "bob@example.org" "pw")
                           Sample.anonymous Sample.world))).
    + intros u [<-|[<-|[]]]; cbn; discriminate.
    + intros u [<-|[<-|[]]]; cbn; discriminate.
  - apply (proj2 (proj2 (signup_duplicate_or_created Sample.env
                           (Mutation.mkSignupArgs "rob2" "rob@example.org" "pw")
                           Sample.anonymous Sample.world))).
    + intros u [<-|[<-|[]]]; cbn; discriminate.
    + exists Sample.rob. split; [left|]; reflexivity.
Defined.

(** C5 as it was stated does not hold: a new name is not enough.  With a new
    name and the e-mail of a stored user, [signup] returns no token and
    stores no user. *)
Lemma signup_new_name_stored_email_is_refused :
  ~ (forall (env : Env) (args : Mutation.SignupArgs) (context : Context)
            (w : World),
        (forall u, In u (userTable w) ->
                   user_name u <> Mutation.signup_name args) ->
        exists payload w',
          Mutation.signup env args context w = (Return payload, w') /\
          userTable w'
          = (userTable w ++ [Mutation.user payload])%list).
Proof.
  intros claim.
  destruct (claim Sample.env
                  (Mutation.mkSignupArgs "rob2" "rob@example.org" "pw")
                  Sample.anonymous Sample.world)
    as [payload [w' [Hrun _]]].
  - intros u [<-|[<-|[]]]; cbn; discriminate.
  - discriminate Hrun.
Qed.

Example signup_on_sample :
  fst (Mutation.signup Sample.env
         (Mutation.mkSignupArgs "rob" "other@example.org" "pw")
         Sample.anonymous Sample.world) = Throw (Error "User already exists") /\
  fst (Mutation.signup Sample.env
         (Mutation.mkSignupArgs "bob" "bob@example.org" "pw")
         Sample.anonymous Sample.world)
  = Return (Mutation.mkAuthPayload "app-secret.c5.1000"
              (mkUser "c5" "bob" "bob@example.org" "$2a$10$2$pw")) /\
  fst (Mutation.signup Sample.env
         (Mutation.mkSignupArgs "rob2" "rob@example.org" "pw")
         Sample.anonymous Sample.world)
  = Throw (Error "A unique constraint would be violated on User. Details: Field name = email").
Proof. repeat split. Qed.

(** C6. [login]: when no stored user has the supplied email it fails with
    "No such user found" (NotFoundError); when the store returns a user for
    the email and bcrypt's comparison of the supplied password with the
    stored hash is false, it fails with "Invalid password"
    (InvalidCredentialsError); when the comparison is true it returns that
    user with a token signed with the process-wide secret over the user's
    identifier.  The store is unchanged throughout. *)
Theorem login_outcomes
        (env : Env) (args : Mutation.LoginArgs) (context : Context) (w : World) :
  ((forall u, In u (userTable w) -> user_email u <> Mutation.login_email args) ->
     Mutation.login env args context w = (Throw (Error "No such user found"), w) /\
     errorKind (Error "No such user found") = Some NotFoundError) /\
  (forall u,
     Prisma.user (Prisma.by_email (Mutation.login_email args)) w
     = (Return (Some u), w) ->
     (bcrypt_compare env (Mutation.login_password args) (user_pwHash u) = false ->
        Mutation.login env args context w = (Throw (Error "Invalid password"), w) /\
        errorKind (Error "Invalid password") = Some InvalidCredentialsError) /\
     (bcrypt_compare env (Mutation.login_password args) (user_pwHash u) = true ->
        Mutation.login env args context w
        = (Return (Mutation.mkAuthPayload
                     (jwt_sign env (mkPayload (user_id u)) (APP_SECRET env)
                               (clock w)) u),
           w))).
Proof.
  unfold Mutation.login, bind. split.
  - intros Habs.
    assert (Hu : Prisma.user (Prisma.by_email (Mutation.login_email args)) w
                 = (Return None, w)).
    { apply user_lookup, find_absent. intros u Hin. cbn.
      apply String.eqb_neq. now apply Habs. }
    rewrite Hu. split; reflexivity.
  - intros u Hu. rewrite Hu. unfold bcrypt.compare, ret.
    split; intros Hc; rewrite Hc; cbn; [split|]; reflexivity.
Qed.

Lemma login_outcomes_witness :
  (Mutation.login Sample.env (Mutation.mkLoginArgs "nobody@example.org" "pw")
                  Sample.anonymous Sample.world
   = (Throw (Error "No such user found"), Sample.world) /\
   errorKind (Error "No such user found") = Some NotFoundError) /\
  (Mutation.login Sample.env (Mutation.mkLoginArgs "rob@example.org" "xx")
                  Sample.anonymous Sample.world
   = (Throw (Error "Invalid password"), Sample.world) /\
   errorKind (Error "Invalid password") = Some InvalidCredentialsError) /\
  Mutation.login Sample.env (Mutation.mkLoginArgs "rob@example.org" "pw")
                 Sample.anonymous Sample.world
  = (Return (Mutation.mkAuthPayload
               (jwt_sign Sample.env (mkPayload (user_id Sample.rob))
                         (APP_SECRET Sample.env) (clock Sample.world))
               Sample.rob),
     Sample.world).
Proof.
  split; [|split].
  - apply (proj1 (login_outcomes Sample.env
                    (Mutation.mkLoginArgs "nobody@example.org" "pw")
                    Sample.anonymous Sample.world)).
    intros u [<-|[<-|[]]]; cbn; discriminate.
  - apply (proj1 (proj2 (login_outcomes Sample.env
                           (Mutation.mkLoginArgs "rob@example.org" "xx")
                           Sample.anonymous Sample.world)
                        Sample.rob eq_refl)).
    reflexivity.
  - apply (proj2 (proj2 (login_outcomes Sample.env
                           (Mutation.mkLoginArgs "rob@example.org" "pw")
                           Sample.anonymous Sample.world)
                        Sample.rob eq_refl)).
    reflexivity.
Defined.

Example login_on_sample :
  fst (Mutation.login Sample.env (Mutation.mkLoginArgs "nobody@example.org" "pw")
         Sample.anonymous Sample.world) = Throw (Error "No such user found") /\
  fst (Mutation.login Sample.env (Mutation.mkLoginArgs "rob@example.org" "xx")
         Sample.anonymous Sample.world) = Throw (Error "Invalid password") /\
  fst (Mutation.login Sample.env (Mutation.mkLoginArgs "rob@example.org" "pw")
         Sample.anonymous Sample.world)
  = Return (Mutation.mkAuthPayload "app-secret.c0.1000" Sample.rob).
Proof. repeat split. Qed.

(** ** The client facade *)

Section Facade.
Import Json LoggingService Rx ArticleService.


Lemma add_quiet {A} (message : A -> string) : quiet (fun v => add (message v)).
Proof. intros v log. eexists. reflexivity. Qed.

(** Behind [map], a [tap] with quiet callbacks delivers what [map] does. *)
Lemma tap_quiet_delivers {A B} (project : A -> result B)
      (onNext : B -> Eff Logger unit) (onError : exn -> Eff Logger unit)
      (ns : list (Notification A)) (log : Logger) :
  quiet onNext -> quiet onError ->
  fst (tap_ns onNext onError (map_ns project ns) log) = map_ns project ns.
Proof.
  intros Hn He. revert log.
  induction ns as [|[v|e|] rest IH]; intros log; cbn; try reflexivity.
  - destruct (project v) as [b|e]; cbn.
    + destruct (Hn b log) as [log' ->]. specialize (IH log').
      destruct (tap_ns onNext onError (map_ns project rest) log'). cbn in *.
      now rewrite IH.
    + destruct (He e log) as [log' ->]. reflexivity.
  - destruct (He e log) as [log' ->]. reflexivity.
Qed.

(** [updateArticle] delivers what it would deliver without the logging. *)
Lemma updateArticle_logging_is_transparent
      (apollo : Apollo) (article : Article) (log : Logger) :
  fst (ArticleService.updateArticle apollo article log)
  = fst (Unlogged.updateArticle apollo article log).
Proof.
  unfold ArticleService.updateArticle, Unlogged.updateArticle, pipe, tap, map,
    from. cbn [fst]. apply tap_quiet_delivers; apply add_quiet.
Qed.

(** X18. When the mutation fails, [postArticle] logs the failure and still
    delivers the error. *)
Lemma postArticle_failure_logged_and_surfaced
      (apollo : Apollo) (article : Article) (log : Logger) (e : exn)
      (rest : list (Notification value)) :
  (forall options, mutation options = PostArticleGql ->
                   apollo options = error e :: rest) ->
  ArticleService.postArticle apollo article log
  = ([error e], (log ++ ["Failed to create article"])%list) /\
  fst (Unlogged.postArticle apollo article log) = [error e].
Proof.
  intros Hans.
  unfold ArticleService.postArticle, Unlogged.postArticle, pipe, tap, map, from.
  rewrite Hans by reflexivity. split; reflexivity.
Qed.

End Facade.

(** C8 (as the code has it). When the server answers the [postArticle]
    mutation with an article (an object with no [data] field of its own), the
    facade's [postArticle] does not deliver it: the logging callback sits
    behind [map] and reads [result.data.postArticle] off the article already
    extracted, throws, and the subscriber is delivered that TypeError in place
    of the payload.  Without the logging the payload is delivered. *)
Theorem postArticle_logging_replaces_payload
        (apollo : ArticleService.Apollo) (article : ArticleService.Article)
        (log : LoggingService.Logger) (result : Json.value)
        (rest : list (Rx.Notification Json.value))
        (fields : list (string * Json.value)) :
  (forall options, ArticleService.mutation options = ArticleService.PostArticleGql ->
                   apollo options = Rx.next result :: rest) ->
  and_then (Json.get result "data") (fun data => Json.get data "postArticle")
  = Return (Json.JObj fields) ->
  Json.get (Json.JObj fields) "data" = Return Json.JUndefined ->
  ArticleService.postArticle apollo article log
  = ([Rx.error (TypeError "Cannot read property 'postArticle' of undefined")],
     log) /\
  exists out,
    Unlogged.postArticle apollo article log
    = (Rx.next (Json.JObj fields) :: out, log).
Proof.
  intros Hans Hmap Hdata.
  unfold ArticleService.postArticle, Unlogged.postArticle, Rx.pipe, Rx.tap,
    Rx.map, Rx.from.
  rewrite Hans by reflexivity. cbn [Rx.map_ns]. rewrite Hmap.
  split.
  - cbn [Rx.tap_ns]. unfold bind, lift. rewrite Hdata. reflexivity.
  - eexists. reflexivity.
Qed.

Lemma postArticle_logging_replaces_payload_witness :
  ArticleService.postArticle (Sample.answers "postArticle") Sample.draft_article []
  = ([Rx.error (TypeError "Cannot read property 'postArticle' of undefined")],
     []) /\
  exists out,
    Unlogged.postArticle (Sample.answers "postArticle") Sample.draft_article []
    = (Rx.next Sample.payload :: out, []).
Proof.
  apply (postArticle_logging_replaces_payload (Sample.answers "postArticle")
           Sample.draft_article []
           (Json.JObj [ ("data", Json.JObj [ ("postArticle", Sample.payload) ]) ])
           [Rx.complete]); reflexivity.
Defined.

Example updateArticle_on_sample :
  ArticleService.updateArticle (Sample.answers "updateArticle")
                               Sample.draft_article []
  = ([Rx.next Sample.payload; Rx.complete], ["Saved article, id=c5"]) /\
  ArticleService.updateArticle Sample.fails Sample.draft_article []
  = ([Rx.error (Error "Network error: Failed to fetch")],
     ["Failed to save article, id=c5"]).
Proof. split; reflexivity. Qed.

(** * Further properties of the resolvers *)

Lemma contains_empty (s : string) : contains s "" = true.
Proof. apply contains_occurs, occurs_in_empty. Qed.

Lemma published_where (filter : option string) (a : Article) :
  Prisma.matches
    (if truthy filter
     then Prisma.mkWhere (Some false) None None
            (Some [ Prisma.mkWhere None filter None None;
                    Prisma.mkWhere None None filter None ])
     else Prisma.mkWhere (Some false) None None None) a
  = shown filter a.
Proof.
  unfold shown. destruct filter as [f|]; cbn.
  - destruct (f =? "") eqn:E; cbn.
    + apply String.eqb_eq in E. subst f. rewrite !contains_empty.
      now destruct (article_draft a).
    + rewrite !andb_true_r, orb_false_r. now destruct (article_draft a).
  - now destruct (article_draft a).
Qed.

Lemma publishedArticles_run (args : Query.PublishedArticlesArgs)
      (context : Context) (w : World) :
  Query.publishedArticles args context w
  = (Return (Prisma.paginate (Query.args_skip args) (Query.args_first args)
               (filter (shown (Query.args_filter args)) (articleTable w))), w).
Proof.
  unfold Query.publishedArticles, Prisma.articles.
  cbn [Prisma.q_where Prisma.q_skip Prisma.q_first Prisma.draft
       Prisma.title_contains Prisma.summary_contains].
  do 3 f_equal. apply filter_ext. intros a. apply published_where.
Qed.

(** X1. Without pagination, [publishedArticles] returns exactly the stored
    articles that are not drafts and, when a filter is given, have it in
    their title or summary: none of them is left out. *)
Theorem publishedArticles_unpaginated_exact
        (filter : option string) (context : Context) (w : World) :
  exists l,
    Query.publishedArticles (Query.mkPublishedArticlesArgs filter None None)
                            context w = (Return l, w) /\
    forall a,
      In a l <->
      In a (articleTable w) /\ article_draft a = false /\
      forall f, filter = Some f ->
        occurs_in f (article_title a) \/ occurs_in f (article_summary a).
Proof.
  rewrite publishedArticles_run. eexists. split; [reflexivity|].
  intros a. cbn. rewrite filter_In. unfold shown.
  rewrite andb_true_iff, negb_true_iff. split.
  - intros [Hin [Hd Hf]]. repeat split; trivial.
    intros f ->. now rewrite orb_true_iff, !contains_occurs in Hf.
  - intros [Hin [Hd Hf]]. repeat split; trivial.
    destruct filter as [f|]; [|reflexivity].
    rewrite orb_true_iff, !contains_occurs. now apply Hf.
Qed.

(** X2. An empty filter string is no filter: [publishedArticles] answers it
    as it answers a request without filter, under any pagination. *)
Theorem publishedArticles_empty_filter
        (skip first : option Z) (context : Context) (w : World) :
  Query.publishedArticles (Query.mkPublishedArticlesArgs (Some "") skip first)
                          context w
  = Query.publishedArticles (Query.mkPublishedArticlesArgs None skip first)
                            context w.
Proof.
  rewrite !publishedArticles_run. cbn. do 3 f_equal.
  apply filter_ext. intros a. unfold shown. now rewrite !contains_empty.
Qed.

(** X3. [publishedArticles] is [allArticles] restricted: its result is the
    unpaginated result of [allArticles] with the drafts and the articles the
    filter rejects taken out, in the same order, and paginated after that (so
    [skip] and [first] count published articles only). *)
Theorem publishedArticles_restricts_allArticles
        (args : Query.PublishedArticlesArgs) (context context' : Context)
        (w : World) :
  exists every,
    Query.allArticles (Query.mkAllArticlesArgs None None) context' w
    = (Return every, w) /\
    Query.publishedArticles args context w
    = (Return (Prisma.paginate (Query.args_skip args) (Query.args_first args)
                 (filter (shown (Query.args_filter args)) every)), w).
Proof.
  exists (articleTable w). split; [reflexivity|]. apply publishedArticles_run.
Qed.

(** X4. The draft guard of [article] does not extend to [allArticles]: for a
    stored draft and a request that is not the administrator's, [article]
    refuses the draft, while [allArticles], asked by the same request,
    returns it among its results. *)
Theorem allArticles_discloses_guarded_draft
        (env : Env) (args : Query.ArticleArgs) (context : Context)
        (w : World) (a : Article) :
  Prisma.article (Query.args_id args) w = (Return (Some a), w) ->
  article_draft a = true ->
  ~ caller_is_admin env context w ->
  (exists e, Query.article env args context w = (Throw e, w)) /\
  exists l,
    Query.allArticles (Query.mkAllArticlesArgs None None) context w
    = (Return l, w) /\ In a l.
Proof.
  intros Ha Hd Hna. split.
  - exists Utils.not_authorized. unfold Query.article, bind.
    rewrite Ha. cbn. rewrite Hd, (assertAdminUser_refuses env context w Hna).
    reflexivity.
  - exists (articleTable w). split; [reflexivity|].
    apply article_lookup in Ha. now apply find_some in Ha.
Qed.

Lemma allArticles_discloses_guarded_draft_witness :
  (exists e, Query.article Sample.env (Query.mkArticleArgs "c3")
                           Sample.anonymous Sample.world
             = (Throw e, Sample.world)) /\
  exists l,
    Query.allArticles (Query.mkAllArticlesArgs None None) Sample.anonymous
                      Sample.world = (Return l, Sample.world) /\
    In Sample.unpublished l.
Proof.
  apply (allArticles_discloses_guarded_draft Sample.env
           (Query.mkArticleArgs "c3") Sample.anonymous Sample.world
           Sample.unpublished); try reflexivity.
  intros [id [u [Hid _]]]. discriminate Hid.
Defined.

Lemma paginate_window {A} (skip first : option Z) (rows : list A) :
  exists before after,
    rows = (before ++ Prisma.paginate skip first rows ++ after)%list.
Proof.
  unfold Prisma.paginate. destruct skip as [m|], first as [n|].
  - exists (firstn (Z.to_nat m) rows),
      (skipn (Z.to_nat n) (skipn (Z.to_nat m) rows)).
    now rewrite !firstn_skipn.
  - exists (firstn (Z.to_nat m) rows), [].
    now rewrite app_nil_r, firstn_skipn.
  - exists [], (skipn (Z.to_nat n) rows). cbn. now rewrite firstn_skipn.
  - exists [], []. cbn. now rewrite app_nil_r.
Qed.

Lemma paginate_length {A} (skip : option Z) (n : Z) (rows : list A) :
  (0 <= n)%Z ->
  (Z.of_nat (List.length (Prisma.paginate skip (Some n) rows)) <= n)%Z.
Proof.
  intros Hn. unfold Prisma.paginate. rewrite length_firstn. lia.
Qed.

(** X5. [allArticles] and [comments] return a window of their table: a run of
    consecutive rows in stored order, nothing reordered and nothing invented;
    with a non-negative [first] the window holds at most that many rows. *)
Theorem paginated_lists_are_windows
        (skip first : option Z) (context : Context) (w : World) :
  (exists l before after,
     Query.allArticles (Query.mkAllArticlesArgs skip first) context w
     = (Return l, w) /\
     articleTable w = (before ++ l ++ after)%list /\
     forall n, first = Some n -> (0 <= n)%Z ->
               (Z.of_nat (List.length l) <= n)%Z) /\
  (exists l before after,
     Query.comments (Query.mkCommentsArgs skip first) context w
     = (Return l, w) /\
     commentTable w = (before ++ l ++ after)%list /\
     forall n, first = Some n -> (0 <= n)%Z ->
               (Z.of_nat (List.length l) <= n)%Z).
Proof.
  split.
  - destruct (paginate_window skip first (articleTable w)) as [b [a H]].
    exists (Prisma.paginate skip first (articleTable w)), b, a.
    repeat split; trivial. intros n ->. apply paginate_length.
  - destruct (paginate_window skip first (commentTable w)) as [b [a H]].
    exists (Prisma.paginate skip first (commentTable w)), b, a.
    repeat split; trivial. intros n ->. apply paginate_length.
Qed.

(** X6. [files] returns exactly the stored files whose parent page or parent
    article has the given identifier, and leaves the store alone: a file
    attached to another document never appears, and none attached to this
    one is missing. *)
Theorem files_of_document
        (args : Query.FilesArgs) (context : Context) (s : Prisma.Store) :
  exists l,
    Query.files args context s = (Return l, s) /\
    forall f,
      In f l <->
      In f (Prisma.fileTable s) /\
      (file_page f = Some (Query.args_documentId args) \/
       file_article f = Some (Query.args_documentId args)).
Proof.
  unfold Query.files, Prisma.files. eexists. split; [reflexivity|].
  intros f. rewrite filter_In. cbn. rewrite orb_false_r, !andb_true_r.
  rewrite orb_true_iff. unfold Prisma.parent_is.
  split; intros [Hin Hp]; (split; [exact Hin|]).
  - destruct Hp as [Hp|Hp]; [left; destruct (file_page f)
                            | right; destruct (file_article f)];
      try discriminate; f_equal; now apply String.eqb_eq.
  - destruct Hp as [-> | ->]; [left|right]; apply String.eqb_refl.
Qed.

Example files_on_sample :
  fst (Query.files (Query.mkFilesArgs "c4") Sample.anonymous Sample.store)
  = Return [mkFile "c7" "logo" "svg" (Some "c4") None] /\
  fst (Query.files (Query.mkFilesArgs "c9") Sample.anonymous Sample.store)
  = Return [].
Proof. split; reflexivity. Qed.

(** X7. [page] and [pages] agree: [page(name)] returns a page exactly when
    [pages()] lists one of that name, and then it is the first of that name
    in the list. *)
Theorem page_agrees_with_pages
        (args : Query.PageArgs) (context context' : Context) (w : World) :
  exists every found,
    Query.pages context' w = (Return every, w) /\
    Query.page args context w = (Return found, w) /\
    (found = None <->
     forall p, In p every -> page_name p <> Query.args_name args) /\
    (forall p, found = Some p ->
       exists before after,
         every = (before ++ p :: after)%list /\
         page_name p = Query.args_name args /\
         forall q, In q before -> page_name q <> Query.args_name args).
Proof.
  unfold Query.pages, Query.page, Prisma.pages, Prisma.page.
  do 2 eexists. split; [reflexivity|]. split; [reflexivity|].
  induction (pageTable w) as [|x l [IHn IHs]]; cbn.
  - split; [tauto|]. discriminate.
  - destruct (page_name x =? Query.args_name args) eqn:E.
    + split.
      * split; [discriminate|]. intros H. exfalso.
        apply (H x (or_introl eq_refl)). now apply String.eqb_eq.
      * intros p [= <-]. exists [], l. repeat split.
        -- now apply String.eqb_eq.
        -- intros q [].
    + apply String.eqb_neq in E. split.
      * rewrite IHn. split.
        -- intros H p [<-|Hp]; [exact E | now apply H].
        -- intros H p Hp. apply H. now right.
      * intros p Hp. destruct (IHs p Hp) as [b [a [-> [Hn Hb]]]].
        exists (x :: b), a. repeat split; trivial.
        intros q [<-|Hq]; [exact E | now apply Hb].
Qed.

(** * Further properties of the mutations *)




Example tokens_carry_their_issue_time :
  fst (Mutation.login Sample.env (Mutation.mkLoginArgs "rob@example.org" "pw")
         Sample.anonymous Sample.world)
  = Return (Mutation.mkAuthPayload "app-secret.c0.1000" Sample.rob) /\
  fst (Mutation.login Sample.env (Mutation.mkLoginArgs "rob@example.org" "pw")
         Sample.anonymous (at_time Sample.world 1001))
  = Return (Mutation.mkAuthPayload "app-secret.c0.1001" Sample.rob).
Proof. split; reflexivity. Qed.

(** X9. A name is taken once: after a successful [signup], every further
    [signup] under the same name fails with "User already exists", whatever
    its email and password, and writes nothing. *)
Theorem signup_twice_is_refused
        (env : Env) (args again : Mutation.SignupArgs)
        (context context' : Context) (w w' : World)
        (payload : Mutation.AuthPayload) :
  Mutation.signup env args context w = (Return payload, w') ->
  Mutation.signup_name again = Mutation.signup_name args ->
  Mutation.signup env again context' w'
  = (Throw (Error "User already exists"), w').
Proof.
  rewrite signup_run.
  destruct (existsb (fun x => user_name x =? _) (userTable w)) eqn:E; [discriminate|].
  destruct (existsb (fun x => user_email x =? _) (userTable w)); [discriminate|].
  intros [= <- <-] Hsame. rewrite signup_run. cbn [userTable].
  rewrite existsb_app. cbn. rewrite Hsame, String.eqb_refl.
  now rewrite orb_true_r.
Qed.

Lemma signup_twice_is_refused_witness :
  Mutation.signup Sample.env
    (Mutation.mkSignupArgs "bob" "other@example.org" "1234") Sample.as_eve
    (snd (Mutation.signup Sample.env
            (Mutation.mkSignupArgs "bob" "bob@example.org" "pw")
            Sample.anonymous Sample.world))
  = (Throw (Error "User already exists"),
     snd (Mutation.signup Sample.env
            (Mutation.mkSignupArgs "bob" "bob@example.org" "pw")
            Sample.anonymous Sample.world)).
Proof.
  apply (signup_twice_is_refused Sample.env
           (Mutation.mkSignupArgs "bob" "bob@example.org" "pw")
           (Mutation.mkSignupArgs "bob" "other@example.org" "1234")
           Sample.anonymous Sample.as_eve Sample.world _
           (Mutation.mkAuthPayload "app-secret.c5.1000"
              (mkUser "c5" "bob" "bob@example.org" "$2a$10$2$pw")));
    reflexivity.
Defined.

(** X10. [signup] keeps user names unique: if no two stored users share a
    name before it runs, none do after it, whether it succeeded or failed. *)
Theorem signup_keeps_names_unique
        (env : Env) (args : Mutation.SignupArgs) (context : Context)
        (w w' : World) (r : result Mutation.AuthPayload) :
  NoDup (List.map user_name (userTable w)) ->
  Mutation.signup env args context w = (r, w') ->
  NoDup (List.map user_name (userTable w')).
Proof.
  intros Hnd. rewrite signup_run.
  destruct (existsb (fun x => user_name x =? _) (userTable w)) eqn:E; [now intros [= <- <-]|].
  destruct (existsb (fun x => user_email x =? _) (userTable w)); intros [= <- <-]; [exact Hnd|].
  cbn [userTable]. rewrite map_app. cbn.
  assert (Hfresh : ~ In (Mutation.signup_name args)
                        (List.map user_name (userTable w))).
  { intros Hin. apply in_map_iff in Hin. destruct Hin as [u [Hn Hu]].
    assert (existsb (fun x => user_name x =? Mutation.signup_name args)
                    (userTable w) = true).
    { apply existsb_exists. exists u. split; [exact Hu|].
      now apply String.eqb_eq. }
    congruence. }
  clear E. induction (List.map user_name (userTable w)) as [|n l IH]; cbn.
  - constructor; [intros []|constructor].
  - inversion Hnd; subst. constructor.
    + rewrite in_app_iff. intros [H|[H|[]]]; [contradiction|].
      apply Hfresh. left. now symmetry.
    + apply IH; trivial. intros H. apply Hfresh. now right.
Qed.

Lemma signup_keeps_names_unique_witness :
  NoDup (List.map user_name
           (userTable (snd (Mutation.signup Sample.env
                              (Mutation.mkSignupArgs "bob" "bob@example.org" "pw")
                              Sample.anonymous Sample.world)))).
Proof.
  apply (signup_keeps_names_unique Sample.env
           (Mutation.mkSignupArgs "bob" "bob@example.org" "pw")
           Sample.anonymous Sample.world _
           (fst (Mutation.signup Sample.env
                   (Mutation.mkSignupArgs "bob" "bob@example.org" "pw")
                   Sample.anonymous Sample.world))).
  - cbn. repeat constructor; cbn; intuition discriminate.
  - reflexivity.
Defined.

Lemma postArticle_outcome (env : Env) (args : Mutation.PostArticleArgs)
      (context : Context) (w : World) :
  (exists e, Mutation.postArticle env args context w = (Throw e, w)) \/
  (caller_is_admin env context w /\
   exists a,
     Mutation.postArticle env args context w
     = (Return a, Prisma.set_articles w (articleTable w ++ [a])) /\
     article_title a = Mutation.args_title args /\
     article_summary a = Mutation.args_summary args /\
     article_content a = Mutation.args_content args /\
     article_tags a = Mutation.args_tags args).
Proof.
  destruct (getUserId_cases env context w) as [[id Hid]|Hid].
  - assert (Hu : Prisma.user (Prisma.by_id id) w
                 = (Return (find (Prisma.selects (Prisma.by_id id))
                                 (userTable w)), w)) by reflexivity.
    rewrite (postArticle_run _ _ _ _ _ _ Hid Hu).
    destruct (find _ (userTable w)) as [u|]; [|left; eexists; reflexivity].
    destruct (user_name u =? ADMIN_USER env) eqn:Hn;
      [|left; eexists; reflexivity].
    right. split.
    + exists id, u. repeat split; trivial. now apply String.eqb_eq.
    + eexists. split; [reflexivity|]. cbn. tauto.
  - left. exists Utils.not_authenticated.
    unfold Mutation.postArticle, bind. now rewrite Hid.
Qed.

Lemma postComment_outcome (env : Env) (args : Mutation.PostCommentArgs)
      (context : Context) (w : World) :
  (exists e, Mutation.postComment env args context w = (Throw e, w)) \/
  (caller_is_admin env context w /\
   exists id c,
     Utils.getUserId env context w = (Return id, w) /\
     Mutation.postComment env args context w
     = (Return c, Prisma.set_comments w (commentTable w ++ [c])) /\
     comment_content c = Mutation.args_comment args /\
     comment_user c = id /\
     comment_article c = Mutation.args_articleId args /\
     existsb (fun a => article_id a =? Mutation.args_articleId args)
             (articleTable w) = true).
Proof.
  destruct (getUserId_cases env context w) as [[id Hid]|Hid].
  - assert (Hu : Prisma.user (Prisma.by_id id) w
                 = (Return (find (Prisma.selects (Prisma.by_id id))
                                 (userTable w)), w)) by reflexivity.
    rewrite (postComment_run _ _ _ _ _ _ Hid Hu).
    destruct (find _ (userTable w)) as [u|]; [|left; eexists; reflexivity].
    destruct (user_name u =? ADMIN_USER env) eqn:Hn;
      [|left; eexists; reflexivity].
    unfold Prisma.createComment.
    cbn [Prisma.connect Prisma.cc_user Prisma.cc_article Prisma.cc_content].
    destruct (existsb (fun x => user_id x =? id) (userTable w));
      [|left; eexists; reflexivity].
    destruct (existsb (fun a => article_id a =? Mutation.args_articleId args)
                      (articleTable w)) eqn:Ha;
      [|left; eexists; reflexivity].
    right. split.
    + exists id, u. repeat split; trivial. now apply String.eqb_eq.
    + exists id. eexists. split; [exact Hid|]. split; [reflexivity|].
      cbn. tauto.
  - left. exists Utils.not_authenticated.
    unfold Mutation.postComment, bind. now rewrite Hid.
Qed.

(** X11. Each mutation writes its own table and nothing else, and only by
    appending: [signup] may add one user, [postArticle] one article,
    [postComment] one comment, [login] writes nothing; stored rows are never
    changed or removed and pages are never written, whatever the outcome. *)
Theorem mutations_only_append
        (env : Env) (context : Context) (w w' : World) :
  (forall args r, Mutation.signup env args context w = (r, w') ->
     grows_by (userTable w) (userTable w') /\
     articleTable w' = articleTable w /\
     commentTable w' = commentTable w /\ pageTable w' = pageTable w) /\
  (forall args r, Mutation.login env args context w = (r, w') -> w' = w) /\
  (forall args r, Mutation.postArticle env args context w = (r, w') ->
     userTable w' = userTable w /\
     grows_by (articleTable w) (articleTable w') /\
     commentTable w' = commentTable w /\ pageTable w' = pageTable w) /\
  (forall args r, Mutation.postComment env args context w = (r, w') ->
     userTable w' = userTable w /\
     articleTable w' = articleTable w /\
     grows_by (commentTable w) (commentTable w') /\
     pageTable w' = pageTable w).
Proof.
  unfold grows_by. split; [|split; [|split]]; intros args r Hrun.
  - revert Hrun. rewrite signup_run.
    destruct (existsb (fun x => user_name x =? _) (userTable w)); [intros [= <- <-]; cbn; eauto 6|].
    destruct (existsb (fun x => user_email x =? _) (userTable w)); intros [= <- <-]; cbn; eauto 6.
  - revert Hrun. unfold Mutation.login, bind, Prisma.user.
    destruct (find _ (userTable w)) as [u|]; cbn; [|now intros [= _ <-]].
    destruct (bcrypt_compare env _ _); cbn; now intros [= _ <-].
  - destruct (postArticle_outcome env args context w) as [[e He]|[_ [a [Ha _]]]];
      rewrite Hrun in *.
    + injection He as _ ->. tauto.
    + injection Ha as _ ->. cbn. repeat split; trivial. right. now exists a.
  - destruct (postComment_outcome env args context w)
      as [[e He]|[_ [i [c [_ [Hc _]]]]]]; rewrite Hrun in *.
    + injection He as _ ->. tauto.
    + injection Hc as _ ->. cbn. repeat split; trivial. right. now exists c.
Qed.

(** X12. Nothing is posted unless the administrator asks: for a request that
    is not the administrator's (no token, a token that does not verify, a
    token for a user the store does not hold, or any other user),
    [postArticle] and [postComment] throw and leave the store as it was. *)
Theorem post_mutations_refuse_all_but_admin
        (env : Env) (context : Context) (w : World) :
  ~ caller_is_admin env context w ->
  (forall args, exists e,
      Mutation.postArticle env args context w = (Throw e, w)) /\
  (forall args, exists e,
      Mutation.postComment env args context w = (Throw e, w)).
Proof.
  intros Hna. split; intros args.
  - destruct (postArticle_outcome env args context w) as [H|[H _]];
      [exact H | contradiction].
  - destruct (postComment_outcome env args context w) as [H|[H _]];
      [exact H | contradiction].
Qed.

Lemma post_mutations_refuse_all_but_admin_witness :
  (forall args, exists e,
      Mutation.postArticle Sample.env args Sample.anonymous Sample.world
      = (Throw e, Sample.world)) /\
  (forall args, exists e,
      Mutation.postComment Sample.env args Sample.anonymous Sample.world
      = (Throw e, Sample.world)).
Proof.
  apply (post_mutations_refuse_all_but_admin Sample.env Sample.anonymous
           Sample.world).
  intros [id [u [Hid _]]]. discriminate Hid.
Defined.

(** X13. What the administrator posts is listed, last: after a successful
    [postComment], [comments] (unpaginated, asked by anyone) returns the
    earlier comments followed by the new one, which carries the given
    content, the caller's identifier and the identifier of an article the
    store holds; after a successful [postArticle], [allArticles] returns the
    earlier articles followed by the new one. *)
Theorem posted_rows_are_listed_last
        (env : Env) (context context' : Context) (w w' : World) :
  (forall args c,
     Mutation.postComment env args context w = (Return c, w') ->
     Query.comments (Query.mkCommentsArgs None None) context' w'
     = (Return (commentTable w ++ [c])%list, w') /\
     comment_content c = Mutation.args_comment args /\
     Utils.getUserId env context w = (Return (comment_user c), w) /\
     exists a, In a (articleTable w') /\ article_id a = comment_article c /\
               comment_article c = Mutation.args_articleId args) /\
  (forall args a,
     Mutation.postArticle env args context w = (Return a, w') ->
     Query.allArticles (Query.mkAllArticlesArgs None None) context' w'
     = (Return (articleTable w ++ [a])%list, w') /\
     article_title a = Mutation.args_title args /\
     article_summary a = Mutation.args_summary args /\
     article_content a = Mutation.args_content args /\
     article_tags a = Mutation.args_tags args).
Proof.
  split.
  - intros args c Hrun.
    destruct (postComment_outcome env args context w)
      as [[e He]|[_ [i [c' [Hid [Hc [Hcont [Hu [Hart Hex]]]]]]]]];
      rewrite Hrun in *; [discriminate|].
    injection Hc as <- ->. subst i.
    repeat split; trivial.
    apply existsb_exists in Hex. destruct Hex as [a [Hin Heq]].
    exists a. cbn. apply String.eqb_eq in Heq. now rewrite Hart.
  - intros args a Hrun.
    destruct (postArticle_outcome env args context w)
      as [[e He]|[_ [a' [Ha Hfields]]]];
      rewrite Hrun in *; [discriminate|].
    injection Ha as <- ->. split; [reflexivity | exact Hfields].
Qed.

Lemma posted_rows_are_listed_last_witness :
  exists c w',
    Mutation.postComment Sample.env (Mutation.mkPostCommentArgs "hello" "c2")
                         Sample.as_rob Sample.world = (Return c, w') /\
    Query.comments (Query.mkCommentsArgs None None) Sample.anonymous w'
    = (Return [c], w') /\
    comment_content c = "hello".
Proof.
  exists (mkComment "c5" "hello" "c0" "c2").
  exists (Prisma.set_comments Sample.world [mkComment "c5" "hello" "c0" "c2"]).
  split; [reflexivity|].
  destruct (proj1 (posted_rows_are_listed_last Sample.env Sample.as_rob
                     Sample.anonymous Sample.world
                     (Prisma.set_comments Sample.world
                        [mkComment "c5" "hello" "c0" "c2"]))
                  (Mutation.mkPostCommentArgs "hello" "c2")
                  (mkComment "c5" "hello" "c0" "c2") eq_refl)
    as [Hlist [Hcontent _]].
  split; [exact Hlist | exact Hcontent].
Defined.

(** * Further properties of the client facade *)

Lemma logging_tap_run {A B} (project : A -> result B) (ok ko : string)
      (ns : list (Rx.Notification A)) (log : LoggingService.Logger) :
  Rx.tap_ns (fun _ => LoggingService.add ok) (fun _ => LoggingService.add ko)
            (Rx.map_ns project ns) log
  = (Rx.map_ns project ns,
     (log ++ entries ok ko (Rx.map_ns project ns))%list).
Proof.
  revert log. induction ns as [|[v|e|] rest IH]; intros log; cbn.
  - now rewrite app_nil_r.
  - destruct (project v) as [b|e]; cbn.
    + rewrite IH. now rewrite <- app_assoc.
    + reflexivity.
  - reflexivity.
  - now rewrite app_nil_r.
Qed.

Lemma logged_pipeline {A B} (project : A -> result B) (ok ko : string)
      (ns : list (Rx.Notification A)) (log : LoggingService.Logger) :
  Rx.pipe (Rx.from ns) (Rx.map project)
          (Rx.tap (fun _ => LoggingService.add ok)
                  (fun _ => LoggingService.add ko)) log
  = (Rx.map_ns project ns,
     (log ++ entries ok ko (Rx.map_ns project ns))%list).
Proof. unfold Rx.pipe, Rx.tap, Rx.map, Rx.from. apply logging_tap_run. Qed.

(** X14. In the seven operations whose callbacks only log, the logging
    changes nothing of what is delivered: the subscriber receives the
    source's results projected on their data field, up to the first error or
    completion, and the logger gains one success line per delivered value and
    one failure line for a delivered error, nothing else. *)
Theorem facade_logging_is_transparent_and_counted
        (watch : ArticleService.Watch) (apollo : ArticleService.Apollo)
        (article : ArticleService.Article) (id : string) (publish : bool)
        (log : LoggingService.Logger) :
  let run (a : ArticleService.Apollo) doc vars refetch :=
      a (ArticleService.mkMutationOptions doc vars refetch) in
  let outcome field ok ko ns :=
      (Rx.map_ns (data_field field) ns,
       (log ++ entries ok ko (Rx.map_ns (data_field field) ns))%list) in
  ArticleService.getArticle watch id log
  = outcome "article" ("Fetched article, id=" ++ id)
            ("Failed to fetch article, id=" ++ id)
            (watch ArticleService.GetArticleGql
                   (Json.JObj [ ("id", Json.JStr id) ])) /\
  ArticleService.getArticles watch log
  = outcome "allArticles" "Fetched articles" "Failed to fetch articles"
            (watch ArticleService.GetAllArticlesGql Json.JUndefined) /\
  ArticleService.getComments watch log
  = outcome "comments" "Fetched comments" "Failed to fetch comments"
            (watch ArticleService.GetCommentsGql Json.JUndefined) /\
  ArticleService.updateArticle apollo article log
  = outcome "updateArticle"
            ("Saved article, id=" ++ ArticleService.id article)
            ("Failed to save article, id=" ++ ArticleService.id article)
            (run apollo ArticleService.UpdateArticleGql
               (Json.JObj
                  [ ("id", Json.JStr (ArticleService.id article));
                    ("title", Json.JStr (ArticleService.title article));
                    ("summary", Json.JStr (ArticleService.summary article));
                    ("content", Json.JStr (ArticleService.content article));
                    ("tags", ArticleService.strings (ArticleService.tags article)) ])
               []) /\
  ArticleService.publishArticle apollo id publish log
  = outcome "publishArticle"
            ((if publish then "Published" else "Unpublished")
               ++ " article, id=" ++ id)
            ("Failed to " ++ (if publish then "Publish" else "Unpublish")
               ++ " article, id=" ++ id)
            (run apollo ArticleService.PublishArticleGql
               (Json.JObj [ ("id", Json.JStr id);
                            ("publish", Json.JBool publish) ]) []) /\
  ArticleService.deleteArticle apollo id log
  = outcome "deleteArticle" ("Deleted article, id=" ++ id)
            ("Failed to delete article, id=" ++ id)
            (run apollo ArticleService.DeleteArticleGql
               (Json.JObj [ ("id", Json.JStr id) ])
               [ ArticleService.mkRefetch ArticleService.GetAllArticlesGql ]) /\
  ArticleService.deleteComment apollo id log
  = outcome "deleteComment" ("Deleted comment, id=" ++ id)
            ("Failed to delete comment, id=" ++ id)
            (run apollo ArticleService.DeleteCommentGql
               (Json.JObj [ ("id", Json.JStr id) ])
               [ ArticleService.mkRefetch ArticleService.GetCommentsGql ]).
Proof.
  cbv zeta. repeat split; apply logged_pipeline.
Qed.

Ltac run_pipeline H :=
  rewrite logged_pipeline, H; cbn [Rx.map_ns entries].

(** X15. A mutation that succeeds delivers the server's payload and then
    completes, and logs one line naming what was done: "Saved", "Published"
    or "Unpublished" (by the flag) or "Deleted", with the identifier the
    caller passed. *)
Theorem mutations_deliver_payload_and_log
        (apollo : ArticleService.Apollo) (article : ArticleService.Article)
        (id : string) (publish : bool) (log : LoggingService.Logger)
        (answer : Json.value) :
  (forall options, apollo options = [Rx.next answer; Rx.complete]) ->
  (forall payload, data_field "updateArticle" answer = Return payload ->
     ArticleService.updateArticle apollo article log
     = ([Rx.next payload; Rx.complete],
        (log ++ [("Saved article, id=" ++ ArticleService.id article)%string])%list)) /\
  (forall payload, data_field "publishArticle" answer = Return payload ->
     ArticleService.publishArticle apollo id publish log
     = ([Rx.next payload; Rx.complete],
        (log ++ [((if publish then "Published article, id="
                  else "Unpublished article, id=") ++ id)%string])%list)) /\
  (forall payload, data_field "deleteArticle" answer = Return payload ->
     ArticleService.deleteArticle apollo id log
     = ([Rx.next payload; Rx.complete],
        (log ++ [("Deleted article, id=" ++ id)%string])%list)) /\
  (forall payload, data_field "deleteComment" answer = Return payload ->
     ArticleService.deleteComment apollo id log
     = ([Rx.next payload; Rx.complete],
        (log ++ [("Deleted comment, id=" ++ id)%string])%list)).
Proof.
  intros Hans. repeat split; intros payload Hp.
  - unfold ArticleService.updateArticle. run_pipeline Hans.
    fold (data_field "updateArticle" answer). now rewrite Hp.
  - unfold ArticleService.publishArticle. run_pipeline Hans.
    fold (data_field "publishArticle" answer). rewrite Hp.
    now destruct publish.
  - unfold ArticleService.deleteArticle. run_pipeline Hans.
    fold (data_field "deleteArticle" answer). now rewrite Hp.
  - unfold ArticleService.deleteComment. run_pipeline Hans.
    fold (data_field "deleteComment" answer). now rewrite Hp.
Qed.

Lemma mutations_deliver_payload_and_log_witness :
  ArticleService.publishArticle (Sample.answers "publishArticle") "c5" true []
  = ([Rx.next Sample.payload; Rx.complete], ["Published article, id=c5"]) /\
  ArticleService.publishArticle (Sample.answers "publishArticle") "c5" false []
  = ([Rx.next Sample.payload; Rx.complete], ["Unpublished article, id=c5"]) /\
  ArticleService.deleteArticle (Sample.answers "deleteArticle") "c5" []
  = ([Rx.next Sample.payload; Rx.complete], ["Deleted article, id=c5"]).
Proof.
  split; [|split].
  - apply (mutations_deliver_payload_and_log (Sample.answers "publishArticle")
             Sample.draft_article "c5" true []
             (Json.JObj [ ("data", Json.JObj [ ("publishArticle", Sample.payload) ]) ]));
      reflexivity.
  - apply (mutations_deliver_payload_and_log (Sample.answers "publishArticle")
             Sample.draft_article "c5" false []
             (Json.JObj [ ("data", Json.JObj [ ("publishArticle", Sample.payload) ]) ]));
      reflexivity.
  - apply (mutations_deliver_payload_and_log (Sample.answers "deleteArticle")
             Sample.draft_article "c5" true []
             (Json.JObj [ ("data", Json.JObj [ ("deleteArticle", Sample.payload) ]) ]));
      reflexivity.
Defined.

(** X16. A failure is never swallowed: when the source of an operation
    delivers an error, each of the seven operations whose callbacks only log
    delivers that same error to the subscriber, nothing after it, and logs
    exactly one "Failed to ..." line. *)
Theorem facade_surfaces_errors
        (watch : ArticleService.Watch) (apollo : ArticleService.Apollo)
        (article : ArticleService.Article) (id : string) (publish : bool)
        (log : LoggingService.Logger) (e : exn)
        (rest : list (Rx.Notification Json.value)) :
  (forall document variables, watch document variables = Rx.error e :: rest) ->
  (forall options, apollo options = Rx.error e :: rest) ->
  ArticleService.getArticle watch id log
  = ([Rx.error e], (log ++ [("Failed to fetch article, id=" ++ id)%string])%list) /\
  ArticleService.getArticles watch log
  = ([Rx.error e], (log ++ ["Failed to fetch articles"])%list) /\
  ArticleService.getComments watch log
  = ([Rx.error e], (log ++ ["Failed to fetch comments"])%list) /\
  ArticleService.updateArticle apollo article log
  = ([Rx.error e],
     (log ++ [("Failed to save article, id=" ++ ArticleService.id article)%string])%list) /\
  ArticleService.publishArticle apollo id publish log
  = ([Rx.error e],
     (log ++ [("Failed to " ++ (if publish then "Publish" else "Unpublish")
                ++ " article, id=" ++ id)%string])%list) /\
  ArticleService.deleteArticle apollo id log
  = ([Rx.error e], (log ++ [("Failed to delete article, id=" ++ id)%string])%list) /\
  ArticleService.deleteComment apollo id log
  = ([Rx.error e], (log ++ [("Failed to delete comment, id=" ++ id)%string])%list).
Proof.
  intros Hwatch Hans.
  unfold ArticleService.getArticle, ArticleService.getArticles,
    ArticleService.getComments, ArticleService.updateArticle,
    ArticleService.publishArticle, ArticleService.deleteArticle,
    ArticleService.deleteComment.
  rewrite !logged_pipeline, !Hwatch, !Hans. cbn [Rx.map_ns entries].
  repeat split.
Qed.

Lemma facade_surfaces_errors_witness :
  ArticleService.getArticles (fun _ _ => [Rx.error (Error "Network error")]) []
  = ([Rx.error (Error "Network error")], ["Failed to fetch articles"]) /\
  ArticleService.deleteComment Sample.fails "c5" []
  = ([Rx.error (Error "Network error: Failed to fetch")],
     ["Failed to delete comment, id=c5"]).
Proof.
  split.
  - apply (facade_surfaces_errors (fun _ _ => [Rx.error (Error "Network error")])
             (fun _ => [Rx.error (Error "Network error")])
             Sample.draft_article "c5" true [] (Error "Network error") []);
      reflexivity.
  - apply (facade_surfaces_errors
             (fun _ _ => [Rx.error (Error "Network error: Failed to fetch")])
             Sample.fails Sample.draft_article "c5" true []
             (Error "Network error: Failed to fetch") []);
      reflexivity.
Defined.

(** X17. An answer whose [data] is null counts as a failure: the projection
    [result.data.<field>] throws, and every mutation of the facade,
    [postArticle] included, delivers that TypeError in place of a value and
    logs its "Failed to ..." line. *)
Theorem answer_without_data_is_a_failure
        (apollo : ArticleService.Apollo) (article : ArticleService.Article)
        (id : string) (publish : bool) (log : LoggingService.Logger)
        (answer : Json.value) (rest : list (Rx.Notification Json.value)) :
  (forall options, apollo options = Rx.next answer :: rest) ->
  Json.get answer "data" = Return Json.JNull ->
  let broken field :=
      [Rx.error (TypeError ("Cannot read property '" ++ field ++ "' of null"))] in
  ArticleService.postArticle apollo article log
  = (broken "postArticle", (log ++ ["Failed to create article"])%list) /\
  ArticleService.updateArticle apollo article log
  = (broken "updateArticle",
     (log ++ [("Failed to save article, id=" ++ ArticleService.id article)%string])%list) /\
  ArticleService.publishArticle apollo id publish log
  = (broken "publishArticle",
     (log ++ [("Failed to " ++ (if publish then "Publish" else "Unpublish")
                ++ " article, id=" ++ id)%string])%list) /\
  ArticleService.deleteArticle apollo id log
  = (broken "deleteArticle",
     (log ++ [("Failed to delete article, id=" ++ id)%string])%list) /\
  ArticleService.deleteComment apollo id log
  = (broken "deleteComment",
     (log ++ [("Failed to delete comment, id=" ++ id)%string])%list).
Proof.
  intros Hans Hdata. cbv zeta. split.
  - unfold ArticleService.postArticle, Rx.pipe, Rx.tap, Rx.map, Rx.from.
    rewrite Hans. cbn [Rx.map_ns]. rewrite Hdata. reflexivity.
  - unfold ArticleService.updateArticle, ArticleService.publishArticle,
      ArticleService.deleteArticle, ArticleService.deleteComment.
    rewrite !logged_pipeline, !Hans. cbn [Rx.map_ns]. rewrite Hdata.
    repeat split.
Qed.

Lemma answer_without_data_is_a_failure_witness :
  ArticleService.postArticle Sample.answers_null Sample.draft_article []
  = ([Rx.error (TypeError "Cannot read property 'postArticle' of null")],
     ["Failed to create article"]) /\
  ArticleService.deleteArticle Sample.answers_null "c5" []
  = ([Rx.error (TypeError "Cannot read property 'deleteArticle' of null")],
     ["Failed to delete article, id=c5"]).
Proof.
  split;
    apply (answer_without_data_is_a_failure Sample.answers_null
             Sample.draft_article "c5" true []
             (Json.JObj [ ("data", Json.JNull) ]) [Rx.complete]);
    reflexivity.
Defined.

Lemma postArticle_failure_logged_and_surfaced_witness :
  ArticleService.postArticle Sample.fails Sample.draft_article []
  = ([Rx.error (Error "Network error: Failed to fetch")],
     ["Failed to create article"]) /\
  fst (Unlogged.postArticle Sample.fails Sample.draft_article [])
  = [Rx.error (Error "Network error: Failed to fetch")].
Proof.
  apply (postArticle_failure_logged_and_surfaced Sample.fails
           Sample.draft_article [] (Error "Network error: Failed to fetch") []).
  reflexivity.
Defined.
